(** * latency: a TCP SYN round-trip probe (grahamking/latency)

    A shallow embedding of [latency.go].  The file holds two revisions of
    the program: the earlier one (a [main] that starts the listener before
    resolving the host, a listener without a remote filter, a [to4byte]
    that checks nothing) and the later one (function [latency], a listener
    pinned to the remote address, a [to4byte] that checks its first part).
    What the revisions share is embedded once; what differs lives in the
    modules [V1] (earlier) and [V2] (later).

    Integers are [Z] with the wrap-around of their Go type written out,
    bytes are [Z] in [0, 256), Go strings are [string].  Library and system
    calls (the resolver, the sockets, the clock, [rand.Uint32]) are answered
    by an explicit [World] record; every call leaves an [event] in a trace,
    so that the order of operations can be stated. *)

From Stdlib Require Import ZArith List String Ascii Bool Lia.
Import ListNotations.
Local Open Scope string_scope.
Local Open Scope list_scope.
Local Open Scope Z_scope.

(** ** Fixed-width integers and big-endian byte order *)

Definition byte := Z.

Definition to_byte (v : Z) : byte := Z.land v 255.
Definition to_uint16 (v : Z) : Z := Z.land v 65535.

(** [binary.BigEndian] for 16 and 32 bit values. *)
Definition put_uint16 (v : Z) : list byte :=
  [to_byte (Z.shiftr v 8); to_byte v].

Definition put_uint32 (v : Z) : list byte :=
  [to_byte (Z.shiftr v 24); to_byte (Z.shiftr v 16);
   to_byte (Z.shiftr v 8); to_byte v].

Definition get_uint16 (b0 b1 : byte) : Z :=
  Z.lor (Z.shiftl b0 8) b1.

Definition get_uint32 (b0 b1 b2 b3 : byte) : Z :=
  Z.lor (Z.lor (Z.lor (Z.shiftl b0 24) (Z.shiftl b1 16)) (Z.shiftl b2 8)) b3.

(** ** The TCP header *)

(** Modelled from the spec: the type [TCPHeader], declared outside
    [latency.go].  The field names are those of the struct literal in
    [sendSyn], the widths the ones its comments give (DataOffset 4 bits,
    Reserved 3, ECN 3, Ctrl 6); ECN and Ctrl together are the 9-bit flag
    set of the spec, and [Options] is its sequence of option bytes. *)
Record TCPHeader : Type := mkTCPHeader {
  Source      : Z;
  Destination : Z;
  SeqNum      : Z;
  AckNum      : Z;
  DataOffset  : Z;
  Reserved    : Z;
  ECN         : Z;
  Ctrl        : Z;
  Window      : Z;
  Checksum    : Z;
  Urgent      : Z;
  Options     : list byte
}.

Definition set_Checksum (h : TCPHeader) (c : Z) : TCPHeader :=
  mkTCPHeader (Source h) (Destination h) (SeqNum h) (AckNum h)
              (DataOffset h) (Reserved h) (ECN h) (Ctrl h) (Window h)
              c (Urgent h) (Options h).

(** Modelled from the spec: the flag bits (absent from [latency.go]).  The
    flag set is the 9-bit mask NS, CWR, ECE, URG, ACK, PSH, RST, SYN, FIN,
    FIN being the lowest bit; [sendSyn] confirms SYN = 2 ("000010, SYN bit
    set"). *)
Definition FIN : Z := 1.
Definition SYN : Z := 2.
Definition RST : Z := 4.
Definition PSH : Z := 8.
Definition ACK : Z := 16.
Definition URG : Z := 32.

(** Modelled from the spec: the 9-bit flag set of a header, the three ECN
    bits above the six control bits. *)
Definition flags (h : TCPHeader) : Z :=
  Z.lor (Z.shiftl (Z.land (ECN h) 7) 6) (Z.land (Ctrl h) 63).

(** Modelled from the spec: [HasFlag] (absent from [latency.go]) tests a
    single bit of the flag set. *)
Definition HasFlag (h : TCPHeader) (flagBit : Z) : bool :=
  negb (Z.land (flags h) flagBit =? 0).

(** Modelled from the spec: [Marshal] (absent from [latency.go]), the
    encoder of section 4.1: source port, destination port, sequence number,
    acknowledgment number, one byte packing dataOffset (4 bits), reserved
    (3 bits) and the high bit of the flags, one byte with the remaining
    eight flag bits, window, checksum, urgent pointer, then the raw option
    bytes; network byte order throughout. *)
Definition Marshal (h : TCPHeader) : list byte :=
  put_uint16 (Source h) ++ put_uint16 (Destination h) ++
  put_uint32 (SeqNum h) ++ put_uint32 (AckNum h) ++
  [ Z.lor (Z.lor (Z.shiftl (Z.land (DataOffset h) 15) 4)
                 (Z.shiftl (Z.land (Reserved h) 7) 1))
          (Z.land (Z.shiftr (flags h) 8) 1);
    Z.land (flags h) 255 ] ++
  put_uint16 (Window h) ++ put_uint16 (Checksum h) ++
  put_uint16 (Urgent h) ++ Options h.

(** Modelled from the spec: [NewTCPHeader] (absent from [latency.go]), the
    decoder of section 4.1.  It reads the twenty bytes of the fixed header;
    option bytes that follow are tolerated and not interpreted.  Fewer than
    twenty bytes is the caller's error, which the spec leaves undefined:
    [None]. *)
Definition NewTCPHeader (data : list byte) : option TCPHeader :=
  match data with
  | s0 :: s1 :: d0 :: d1 :: q0 :: q1 :: q2 :: q3 :: a0 :: a1 :: a2 :: a3 ::
    m0 :: m1 :: w0 :: w1 :: c0 :: c1 :: u0 :: u1 :: _ =>
      let fl := Z.lor (Z.shiftl (Z.land m0 1) 8) m1 in
      Some (mkTCPHeader (get_uint16 s0 s1) (get_uint16 d0 d1)
                        (get_uint32 q0 q1 q2 q3) (get_uint32 a0 a1 a2 a3)
                        (Z.shiftr m0 4) (Z.land (Z.shiftr m0 1) 7)
                        (Z.shiftr fl 6) (Z.land fl 63)
                        (get_uint16 w0 w1) (get_uint16 c0 c1)
                        (get_uint16 u0 u1) [])
  | _ => None
  end.

(** ** The checksum *)

(** Modelled from the spec: the 16-bit big-endian words that [Csum] adds
    up; an odd last byte is the high byte of a final word whose low byte is
    zero. *)
Fixpoint words16 (bs : list byte) : list Z :=
  match bs with
  | [] => []
  | [b] => [get_uint16 b 0]
  | b0 :: b1 :: rest => get_uint16 b0 b1 :: words16 rest
  end.

(** Modelled from the spec: the addition with end-around carry of
    [Csum]; the carry out of bit 16 is added back. *)
Definition add1c (a b : Z) : Z :=
  let s := a + b in Z.land s 65535 + Z.shiftr s 16.

(** Modelled from the spec: the checksum field (bytes 16 and 17 of a
    segment) forced to zero, as [Csum] does for its computation. *)
Fixpoint zero_checksum_field_from (i : nat) (bs : list byte) : list byte :=
  match bs with
  | [] => []
  | b :: rest =>
      (if (Nat.eqb i 16 || Nat.eqb i 17)%bool then 0 else b)
        :: zero_checksum_field_from (S i) rest
  end.

Definition zero_checksum_field (bs : list byte) : list byte :=
  zero_checksum_field_from 0 bs.

(** Modelled from the spec: [Csum] (absent from [latency.go]; the earlier
    revision calls it [csum]), the checksum of section 4.2: the pseudo-header
    (source address, destination address, a zero byte, protocol number 6,
    the segment length on two bytes) followed by the segment bytes with the
    checksum field forced to zero, summed as 16-bit words with end-around
    carry, and complemented. *)
Definition Csum (data : list byte) (srcip dstip : list byte) : Z :=
  let pseudo := srcip ++ dstip ++ [0; 6] ++
                put_uint16 (Z.of_nat (List.length data)) in
  let sum := fold_left add1c (words16 (pseudo ++ zero_checksum_field data)) 0 in
  to_uint16 (Z.lnot sum).

(** ** Strings: [strings.Split] and [strconv.Atoi] *)

(** [strings.Split(s, sep)] for a one-character separator: the pieces of
    [s] between the separators, one more than there are separators. *)
Fixpoint Split (s : string) (sep : ascii) : list string :=
  match s with
  | EmptyString => [EmptyString]
  | String c rest =>
      if Ascii.eqb c sep then EmptyString :: Split rest sep
      else match Split rest sep with
           | p :: ps => String c p :: ps
           | [] => [String c EmptyString]
           end
  end.

Definition digit_of (c : ascii) : option Z :=
  let n := Z.of_N (N_of_ascii c) in
  if ((48 <=? n) && (n <=? 57))%bool then Some (n - 48) else None.

Fixpoint digits_value (s : string) (acc : Z) : option Z :=
  match s with
  | EmptyString => Some acc
  | String c rest =>
      match digit_of c with
      | Some d => digits_value rest (acc * 10 + d)
      | None => None
      end
  end.

(** The bounds of [int] (and of [time.Duration]): 64 bits. *)
Definition maxInt : Z := 9223372036854775807.
Definition minInt : Z := -9223372036854775808.

(** [strconv.Atoi]: an optional sign and decimal digits.  The result is the
    value and whether an error is returned: a syntax error gives 0, a value
    out of the range of [int] gives the nearest bound. *)
Definition Atoi (s : string) : Z * bool :=
  let '(neg, body) :=
    match s with
    | String "-"%char rest => (true, rest)
    | String "+"%char rest => (false, rest)
    | _ => (false, s)
    end in
  match body with
  | EmptyString => (0, true)
  | _ =>
      match digits_value body 0 with
      | None => (0, true)
      | Some n =>
          let v := if neg then - n else n in
          if v >? maxInt then (maxInt, true)
          else if v <? minInt then (minInt, true)
          else (v, false)
      end
  end.

(** ** Effects: outcomes, events, the world *)

(** How a call ends: with a value, by [log.Fatalf] (the process exits), by
    a run-time panic, blocked for ever in a read that nothing answers, or
    in a call whose result the decoder's contract leaves undefined. *)
Inductive outcome (A : Type) : Type :=
| Ok (a : A)
| Fatal (msg : string)
| Panic (msg : string)
| Blocked
| Undefined.
Arguments Ok {A} a.
Arguments Fatal {A} msg.
Arguments Panic {A} msg.
Arguments Blocked {A}.
Arguments Undefined {A}.

Inductive event : Type :=
| EvLookupHost (host : string)
| EvGo
| EvSleep
| EvWait
| EvResolveIPAddr (addr : string)
| EvListenIP (addr : string)
| EvReadFrom (numRead : nat) (raddr : string)
| EvCompareAddr (same : bool)
| EvNow (t : Z)
| EvDecode (data : list byte)
| EvDial (raddr : string)
| EvWrite (data : list byte) (numWrote : Z) (err : bool)
| EvClose
| EvFatal (msg : string)
| EvPanic (msg : string).

(** A computation: the events it performed, in order, and how it ended. *)
Definition M (A : Type) : Type := (list event * outcome A)%type.

Definition ret {A} (a : A) : M A := ([], Ok a).

Definition bind {A B} (m : M A) (k : A -> M B) : M B :=
  match m with
  | (t, Ok a) => let '(t', o) := k a in (t ++ t', o)
  | (t, Fatal msg) => (t, Fatal msg)
  | (t, Panic msg) => (t, Panic msg)
  | (t, Blocked) => (t, Blocked)
  | (t, Undefined) => (t, Undefined)
  end.

Notation "x <- m ;; k" := (bind m (fun x => k))
  (at level 61, m at next level, right associativity).
Notation "m ;;; k" := (bind m (fun _ => k))
  (at level 61, right associativity).

Definition emit (e : event) : M unit := ([e], Ok tt).
Definition fatal {A} (msg : string) : M A := ([EvFatal msg], Fatal msg).
Definition panic {A} (msg : string) : M A := ([EvPanic msg], Panic msg).

(** [parts[i]], which panics out of range. *)
Definition index (parts : list string) (i : nat) : M string :=
  match nth_error parts i with
  | Some p => ret p
  | None => panic "index out of range"
  end.

(** One answer of [conn.ReadFrom]: an error, or a datagram with the text of
    its source address ([raddr.String()]), its bytes, and what the clock
    shows while this datagram is being handled. *)
Inductive read_result : Type :=
| ReadErr
| Datagram (src : string) (payload : list byte) (clock : Z).

(** The answers of the environment. *)
Record World : Type := mkWorld {
  lookup_host  : string -> option (list string);  (* net.LookupHost *)
  rand_uint32  : Z;                               (* rand.Uint32 *)
  resolve_ok   : bool;                            (* net.ResolveIPAddr *)
  listen_ok    : bool;                            (* net.ListenIP *)
  inbound      : list read_result;                (* conn.ReadFrom, in order *)
  dial_ok      : bool;                            (* net.Dial *)
  send_clock   : Z;                               (* time.Now in sendSyn *)
  write_result : list byte -> Z * bool            (* conn.Write: n, error *)
}.

(** [time.Time] is a count of nanoseconds; [Time.Sub] is the difference,
    held to the range of [time.Duration] (a 64-bit count). *)
Definition time_Sub (t u : Z) : Z :=
  let d := t - u in
  if d >? maxInt then maxInt else if d <? minInt then minInt else d.

(** ** The probe sender *)

Definition Dial (w : World) (raddr : string) : M unit :=
  emit (EvDial raddr) ;;;
  if dial_ok w then ret tt else fatal "Dial".

Definition Now (t : Z) : M Z := emit (EvNow t) ;;; ret t.

Definition Write (w : World) (data : list byte) : M Z :=
  let '(n, err) := write_result w data in
  emit (EvWrite data n err) ;;;
  if err then fatal "Write" else ret n.

(** The struct literal of [sendSyn]; [seq] is what [rand.Uint32()] gave. *)
Definition synPacket (port seq : Z) : TCPHeader :=
  {| Source := 0xaa47;
     Destination := port;
     SeqNum := seq;
     AckNum := 0;
     DataOffset := 5;
     Reserved := 0;
     ECN := 0;
     Ctrl := 2;
     Window := 0xaaaa;
     Checksum := 0;
     Urgent := 0;
     Options := [] |}.

(** [sendSyn], the same text in both revisions but for the [to4byte] it
    calls (and the spelling [csum]/[Csum]). *)
Definition sendSyn_with (to4byte : string -> M (list byte))
    (w : World) (laddr raddr : string) (port : Z) : M Z :=
  let packet := synPacket port (rand_uint32 w) in
  let data := Marshal packet in
  l4 <- to4byte laddr ;;
  r4 <- to4byte raddr ;;
  let packet := set_Checksum packet (Csum data l4 r4) in
  let data := Marshal packet in
  Dial w raddr ;;;
  sendTime <- Now (send_clock w) ;;
  numWrote <- Write w data ;;
  if negb (numWrote =? Z.of_nat (List.length data)) then fatal "Short write"
  else emit EvClose ;;; ret sendTime.

(** ** Runs of the two goroutines *)

(** [wg.Wait()]: returns once the listener has returned; if the listener
    ended the process, or never returns, so does the waiting goroutine. *)
Definition Wait (listener : outcome Z) : M Z :=
  match listener with
  | Ok t => emit EvWait ;;; ret t
  | Fatal msg => ([], Fatal msg)
  | Panic msg => ([], Panic msg)
  | Blocked => ([], Blocked)
  | Undefined => ([], Undefined)
  end.

(** A measurement: the events of the main goroutine, the events of the
    listener goroutine (none if it was never started), and the result. *)
Record run : Type := mkRun {
  main_trace     : list event;
  listener_trace : list event;
  result         : outcome Z
}.

Definition is_exit (e : event) : bool :=
  match e with
  | EvFatal _ | EvPanic _ => true
  | _ => false
  end.

(** [sched started m l t]: [t] is an order in which the events [m] of the
    main goroutine and the events [l] of the listener can happen, observed
    up to the last event of the main goroutine.  The listener runs only
    once [EvGo] has happened; [EvWait] happens only once the listener is
    through; an exit event of either goroutine ends the process, and what
    the other had left to do never happens. *)
Inductive sched : bool -> list event -> list event -> list event -> Prop :=
| sched_end : forall started l,
    sched started [] l []
| sched_main_exit : forall started e m l,
    is_exit e = true ->
    sched started (e :: m) l [e]
| sched_go : forall m l t,
    sched true m l t ->
    sched false (EvGo :: m) l (EvGo :: t)
| sched_wait : forall m t,
    sched true m [] t ->
    sched true (EvWait :: m) [] (EvWait :: t)
| sched_main : forall started e m l t,
    is_exit e = false -> e <> EvGo -> e <> EvWait ->
    sched started m l t ->
    sched started (e :: m) l (e :: t)
| sched_listener_exit : forall e m l,
    is_exit e = true ->
    sched true m (e :: l) [e]
| sched_listener : forall e m l t,
    is_exit e = false ->
    sched true m l t ->
    sched true m (e :: l) (e :: t).

Definition execution (r : run) (t : list event) : Prop :=
  sched false (main_trace r) (listener_trace r) t.

(** The calls that open a socket: [net.Dial] (send) and [net.ListenIP]
    (listen). *)
Definition opens_socket (e : event) : bool :=
  match e with
  | EvDial _ | EvListenIP _ => true
  | _ => false
  end.

(** The decision of the listener on a decoded segment: RST, or SYN and
    ACK. *)
Definition is_reply (tcp : TCPHeader) : bool :=
  (HasFlag tcp RST || (HasFlag tcp SYN && HasFlag tcp ACK))%bool.

(** [conn.ReadFrom(buf)] with [buf := make([]byte, 1024)], followed by
    [buf[:numRead]]: what fits in the buffer. *)
Definition bufSize : nat := 1024.
Definition ReadFrom_buf (payload : list byte) : list byte :=
  firstn bufSize payload.

Definition openListener (w : World) (addr : string) : M unit :=
  emit (EvResolveIPAddr addr) ;;;
  (if resolve_ok w then ret tt else fatal "net.ResolveIPAddr") ;;;
  emit (EvListenIP addr) ;;;
  if listen_ok w then ret tt else fatal "ListenIP".

(** ** The earlier revision *)

Module V1.

(** [to4byte]: every error of [Atoi] is dropped. *)
Definition to4byte (addr : string) : M (list byte) :=
  let parts := Split addr "."%char in
  p0 <- index parts 0 ;;
  let '(b0, _) := Atoi p0 in
  p1 <- index parts 1 ;;
  let '(b1, _) := Atoi p1 in
  p2 <- index parts 2 ;;
  let '(b2, _) := Atoi p2 in
  p3 <- index parts 3 ;;
  let '(b3, _) := Atoi p3 in
  ret [to_byte b0; to_byte b1; to_byte b2; to_byte b3].

Definition sendSyn := sendSyn_with to4byte.

(** The loop of [receiveSynAck]: no filter.  The variable [receiveTime] is
    assigned in every round and read after [break] only, so the loop
    returns it. *)
Fixpoint listen_loop (reads : list read_result) : M Z :=
  match reads with
  | [] => ([], Blocked)
  | ReadErr :: _ => fatal "ReadFrom"
  | Datagram src payload clock :: rest =>
      let buf := ReadFrom_buf payload in
      emit (EvReadFrom (List.length buf) src) ;;;
      receiveTime <- Now clock ;;
      emit (EvDecode buf) ;;;
      match NewTCPHeader buf with
      | None => ([], Undefined)
      | Some tcp =>
          if is_reply tcp then ret receiveTime else listen_loop rest
      end
  end.

Definition receiveSynAck (w : World) (addr : string) : M Z :=
  openListener w addr ;;;
  listen_loop (inbound w).

(** [main] from the check of the arguments on; [laddr] is the address of
    the chosen interface and [args] is [flag.Args()].  The listener is
    started before the host is resolved. *)
Definition main_thread (w : World) (laddr : string) (args : list string)
    (port : Z) : M Z :=
  match args with
  | [] => fatal "Missing remote address"
  | addr :: _ =>
      emit EvGo ;;;
      emit (EvLookupHost addr) ;;;
      match lookup_host w addr with
      | None => fatal "LookupHost"
      | Some addrs =>
          addr <- index addrs 0 ;;
          emit EvSleep ;;;
          sendTime <- sendSyn w laddr addr port ;;
          receiveTime <- Wait (snd (receiveSynAck w laddr)) ;;
          ret (time_Sub receiveTime sendTime)
      end
  end.

Definition main (w : World) (laddr : string) (args : list string)
    (port : Z) : run :=
  let m := main_thread w laddr args port in
  {| main_trace := fst m;
     listener_trace :=
       match args with
       | [] => []
       | _ => fst (receiveSynAck w laddr)
       end;
     result := snd m |}.

End V1.

(** ** The later revision *)

Module V2.

(** [to4byte]: the error of the first [Atoi] is fatal, the other three
    are dropped. *)
Definition to4byte (addr : string) : M (list byte) :=
  let parts := Split addr "."%char in
  p0 <- index parts 0 ;;
  let '(b0, err) := Atoi p0 in
  if err then fatal "to4byte" else
  p1 <- index parts 1 ;;
  let '(b1, _) := Atoi p1 in
  p2 <- index parts 2 ;;
  let '(b2, _) := Atoi p2 in
  p3 <- index parts 3 ;;
  let '(b3, _) := Atoi p3 in
  ret [to_byte b0; to_byte b1; to_byte b2; to_byte b3].

Definition sendSyn := sendSyn_with to4byte.

(** The loop of [receiveSynAck]: a datagram from another source is skipped
    before the clock is read. *)
Fixpoint listen_loop (remoteAddress : string) (reads : list read_result)
    : M Z :=
  match reads with
  | [] => ([], Blocked)
  | ReadErr :: _ => fatal "ReadFrom"
  | Datagram src payload clock :: rest =>
      let buf := ReadFrom_buf payload in
      emit (EvReadFrom (List.length buf) src) ;;;
      if negb (String.eqb src remoteAddress) then
        emit (EvCompareAddr false) ;;;
        listen_loop remoteAddress rest
      else
        emit (EvCompareAddr true) ;;;
        receiveTime <- Now clock ;;
        emit (EvDecode buf) ;;;
        match NewTCPHeader buf with
        | None => ([], Undefined)
        | Some tcp =>
            if is_reply tcp then ret receiveTime
            else listen_loop remoteAddress rest
        end
  end.

Definition receiveSynAck (w : World) (localAddress remoteAddress : string)
    : M Z :=
  openListener w localAddress ;;;
  listen_loop remoteAddress (inbound w).

(** [latency]: the host is resolved first; then the listener is started,
    the probe is sent, and the two times are subtracted. *)
Definition latency_thread (w : World) (localAddr remoteHost : string)
    (port : Z) : M Z :=
  emit (EvLookupHost remoteHost) ;;;
  match lookup_host w remoteHost with
  | None => fatal "Error resolving"
  | Some addrs =>
      remoteAddr <- index addrs 0 ;;
      emit EvGo ;;;
      emit EvSleep ;;;
      sendTime <- sendSyn w localAddr remoteAddr port ;;
      receiveTime <- Wait (snd (receiveSynAck w localAddr remoteAddr)) ;;
      ret (time_Sub receiveTime sendTime)
  end.

Definition latency (w : World) (localAddr remoteHost : string) (port : Z)
    : run :=
  let m := latency_thread w localAddr remoteHost port in
  {| main_trace := fst m;
     listener_trace :=
       match lookup_host w remoteHost with
       | Some (remoteAddr :: _) => fst (receiveSynAck w localAddr remoteAddr)
       | _ => []
       end;
     result := snd m |}.

End V2.

(** * Predicates used in the statements *)

(** The two packed bytes give back the four small fields; checked over the
    whole range of the fields. *)
Definition packed_fields_ok (d r e c : Z) : bool :=
  let h := mkTCPHeader 0 0 0 0 d r e c 0 0 0 [] in
  match NewTCPHeader (Marshal h) with
  | Some h' =>
      (DataOffset h' =? d) && (Reserved h' =? r) &&
      (ECN h' =? e) && (Ctrl h' =? c)
  | None => false
  end.

Definition all_below (n : nat) (p : Z -> bool) : bool :=
  forallb p (map Z.of_nat (seq 0 n)).

(** A validly constructed segment of a probe: every field within its
    width, a header of five words, no options. *)
Definition valid_segment (h : TCPHeader) : Prop :=
  0 <= Source h < 65536 /\ 0 <= Destination h < 65536 /\
  0 <= SeqNum h < 4294967296 /\ 0 <= AckNum h < 4294967296 /\
  DataOffset h = 5 /\ 0 <= Reserved h < 8 /\
  0 <= ECN h < 8 /\ 0 <= Ctrl h < 64 /\
  0 <= Window h < 65536 /\ 0 <= Checksum h < 65536 /\
  0 <= Urgent h < 65536 /\ Options h = [].

(** What [sendSyn] hands to [conn.Write]: the segment serialized again
    once its checksum, computed over the first serialization, is in. *)
Definition probe_bytes (port seq : Z) (l4 r4 : list byte) : list byte :=
  let packet := synPacket port seq in
  Marshal (set_Checksum packet (Csum (Marshal packet) l4 r4)).

(** The part of [sendSyn] after the bytes are ready. *)
Definition transmit (w : World) (raddr : string) (data : list byte) : M Z :=
  Dial w raddr ;;;
  sendTime <- Now (send_clock w) ;;
  numWrote <- Write w data ;;
  if negb (numWrote =? Z.of_nat (List.length data)) then fatal "Short write"
  else emit EvClose ;;; ret sendTime.

(** [to4byte] performs no event but the one of its own failure, and it
    gives four bytes when it returns. *)
Definition quiet (m : M (list byte)) : Prop :=
  match m with
  | (t, Ok bs) => t = [] /\ List.length bs = 4%nat
  | (t, Fatal msg) => t = [EvFatal msg]
  | (t, Panic msg) => t = [EvPanic msg]
  | (_, Blocked) => False
  | (_, Undefined) => False
  end.

Definition is_write (e : event) : bool :=
  match e with EvWrite _ _ _ => true | _ => false end.


(** An IPv4 dotted-quad literal: four parts, each a decimal number of at
    most 255. *)
Definition is_octet (s : string) : bool :=
  match s with
  | EmptyString => false
  | _ => match digits_value s 0 with
         | Some v => v <=? 255
         | None => false
         end
  end.

Definition is_dotted_quad (addr : string) : bool :=
  match Split addr "."%char with
  | [a; b; c; d] => is_octet a && is_octet b && is_octet c && is_octet d
  | _ => false
  end.

(** What the guard of the later [to4byte] looks at: [Atoi] fails on the
    part before the first dot. *)
Definition first_part_rejected (addr : string) : Prop :=
  snd (Atoi (hd EmptyString (Split addr "."%char))) = true.

Definition is_dial (e : event) : bool :=
  match e with EvDial _ => true | _ => false end.

(** No socket is opened and nothing is written. *)
Definition nothing_sent (t : list event) : bool :=
  forallb (fun e => negb (opens_socket e || is_write e)) t.

(** ** A sample world

    The host resolves to 10.0.0.2; a SYN/ACK from a stranger, then an ACK
    and a SYN/ACK from 10.0.0.2 arrive; every call succeeds. *)
Definition synack_bytes : list byte :=
  Marshal (mkTCPHeader 80 0xaa47 7 9 5 0 0 (Z.lor SYN ACK) 100 0 0 []).
Definition ack_bytes : list byte :=
  Marshal (mkTCPHeader 80 0xaa47 7 9 5 0 0 ACK 100 0 0 []).
Definition rst_bytes : list byte :=
  Marshal (mkTCPHeader 80 0xaa47 0 9 5 0 0 (Z.lor RST ACK) 0 0 0 []).

Definition sample_world : World :=
  {| lookup_host := fun h =>
       if String.eqb h "example.com" then Some ["10.0.0.2"] else None;
     rand_uint32 := 12345;
     resolve_ok := true;
     listen_ok := true;
     inbound := [Datagram "10.0.0.9" synack_bytes 100;
                 Datagram "10.0.0.2" ack_bytes 110;
                 Datagram "10.0.0.2" synack_bytes 120];
     dial_ok := true;
     send_clock := 50;
     write_result := fun d => (Z.of_nat (List.length d), false) |}.

(** The same world with a socket that takes only half of the bytes. *)
Definition short_write_world : World :=
  {| lookup_host := lookup_host sample_world;
     rand_uint32 := 12345;
     resolve_ok := true;
     listen_ok := true;
     inbound := inbound sample_world;
     dial_ok := true;
     send_clock := 50;
     write_result := fun d => (Z.of_nat (List.length d) / 2, false) |}.

(** ** The listener's view of a datagram *)

(** The loop goes on after this read: a datagram from another source, or
    one from the remote address whose segment is no reply. *)
Definition ignored (remoteAddress : string) (r : read_result) : bool :=
  match r with
  | ReadErr => false
  | Datagram src payload _ =>
      if String.eqb src remoteAddress then
        match NewTCPHeader (ReadFrom_buf payload) with
        | Some tcp => negb (is_reply tcp)
        | None => false
        end
      else true
  end.

(** The loop stops at this read: a datagram from the remote address whose
    segment carries RST, or SYN and ACK. *)
Definition answers (remoteAddress : string) (r : read_result) : bool :=
  match r with
  | ReadErr => false
  | Datagram src payload _ =>
      String.eqb src remoteAddress &&
      match NewTCPHeader (ReadFrom_buf payload) with
      | Some tcp => is_reply tcp
      | None => false
      end
  end.

Definition is_read (e : event) : bool :=
  match e with EvReadFrom _ _ => true | _ => false end.

Definition count_reads (t : list event) : nat :=
  List.length (filter is_read t).

(** Every read is followed at once by the reading of the clock. *)
Fixpoint stamp_right_after_read (t : list event) : bool :=
  match t with
  | [] => true
  | EvReadFrom _ _ :: rest =>
      match rest with
      | EvNow _ :: rest' => stamp_right_after_read rest'
      | _ => false
      end
  | _ :: rest => stamp_right_after_read rest
  end.

(** Every read is followed by the comparison of the source address; the
    clock is read after a comparison that succeeded and before the
    decoding, and nowhere else. *)
Fixpoint stamp_after_filter (t : list event) : bool :=
  match t with
  | [] => true
  | EvReadFrom _ _ :: rest =>
      match rest with
      | EvCompareAddr true :: EvNow _ :: EvDecode _ :: rest' =>
          stamp_after_filter rest'
      | EvCompareAddr false :: rest' => stamp_after_filter rest'
      | _ => false
      end
  | EvNow _ :: _ => false
  | _ :: rest => stamp_after_filter rest
  end.

(** A world whose listener receives one RST from the remote address. *)
Definition rst_world : World :=
  {| lookup_host := lookup_host sample_world;
     rand_uint32 := 12345;
     resolve_ok := true;
     listen_ok := true;
     inbound := [Datagram "10.0.0.2" rst_bytes 120];
     dial_ok := true;
     send_clock := 50;
     write_result := write_result sample_world |}.

(** A world in which no host resolves. *)
Definition no_dns_world : World :=
  {| lookup_host := fun _ => None;
     rand_uint32 := 12345;
     resolve_ok := true;
     listen_ok := true;
     inbound := inbound sample_world;
     dial_ok := true;
     send_clock := 50;
     write_result := write_result sample_world |}.

(** * The rest of the program: interfaces, flags, [main], [autoTest] *)

(** ** Network interfaces *)

(** One entry of [net.Interfaces()]: its name and what [iface.Addrs()]
    answers, an error ([None]) or the texts of its addresses
    ([addr.String()], such as "192.168.1.30/24"). *)
Record Interface : Type := mkInterface {
  Name  : string;
  Addrs : option (list string)
}.

(** The loop of [chooseInterface] over the interfaces. *)
Fixpoint chooseInterface_loop (interfaces : list Interface) : string :=
  match interfaces with
  | [] => EmptyString
  | iface :: rest =>
      if String.eqb (Name iface) "lo" then chooseInterface_loop rest
      else
        match Addrs iface with
        | None => chooseInterface_loop rest
        | Some addrs =>
            if (0 <? List.length addrs)%nat then Name iface
            else chooseInterface_loop rest
        end
  end.

(** [chooseInterface]; [interfaces] is the answer of [net.Interfaces()],
    [None] for an error.  The line logged for an interface whose addresses
    cannot be read is not kept. *)
Definition chooseInterface (interfaces : option (list Interface)) : M string :=
  match interfaces with
  | None => fatal "net.Interfaces"
  | Some l => ret (chooseInterface_loop l)
  end.

(** [net.InterfaceByName]: an empty name is refused, any other is looked
    up among the interfaces. *)
Definition InterfaceByName (interfaces : option (list Interface))
    (name : string) : option Interface :=
  match interfaces with
  | None => None
  | Some l =>
      if String.eqb name EmptyString then None
      else find (fun iface => String.eqb (Name iface) name) l
  end.

(** [interfaceAddress]: the first address of the interface of that name. *)
Definition interfaceAddress (interfaces : option (list Interface))
    (ifaceName : string) : M string :=
  match InterfaceByName interfaces ifaceName with
  | None => fatal "net.InterfaceByName"
  | Some iface =>
      match Addrs iface with
      | None => fatal "iface.Addrs"
      | Some addrs => index addrs 0
      end
  end.

(** The loop of [chooseInterface] passes over this interface. *)
Definition unusable (iface : Interface) : bool :=
  String.eqb (Name iface) "lo" ||
  match Addrs iface with
  | None => true
  | Some addrs => negb (0 <? List.length addrs)%nat
  end.

(** ** Flags and [main] of the later revision *)

(** The parsed command line: [-i], [-h], [-p], [-a] and [flag.Args()]. *)
Record Flags : Type := mkFlags {
  ifaceParam : string;
  helpParam  : bool;
  portParam  : Z;
  autoParam  : bool;
  args       : list string
}.

(** [defaultHosts].  It is a map: [range] visits its entries in an order
    of its own, which [autoTest] below takes as its argument. *)
Definition defaultHosts : list (string * string) :=
  [ ("Google", "google.com");
    ("Facebook", "facebook.com");
    ("Baidu", "baidu.com");
    ("West Coast, USA", "speedtest.fremont.linode.com");
    ("East Coast, USA", "speedtest.newark.linode.com");
    ("London, UK", "speedtest.london.linode.com");
    ("Tokyo, JP", "speedtest.tokyo.linode.com");
    ("New Zealand", "nzdsl.co.nz");
    ("South Africa", "speedtest.mybroadband.co.za") ].

(** What the program prints: labelled durations, in order, and how it
    ended. *)
Definition Report : Type := (list (string * Z) * outcome unit)%type.

(** The end of an outcome that is no value. *)
Definition failed {A B} (o : outcome A) : outcome B :=
  match o with
  | Ok _ => Undefined
  | Fatal msg => Fatal msg
  | Panic msg => Panic msg
  | Blocked => Blocked
  | Undefined => Undefined
  end.

(** [autoTest]: one measurement after the other, each printed once it has
    returned; [hosts] are the entries in the order [range] yields them and
    [world_for] is the world the measurement of a host meets. *)
Fixpoint autoTest (world_for : string -> World) (localAddr : string)
    (port : Z) (hosts : list (string * string)) : Report :=
  match hosts with
  | [] => ([], Ok tt)
  | (name, host) :: rest =>
      match result (V2.latency (world_for host) localAddr host port) with
      | Ok d =>
          let '(printed, o) := autoTest world_for localAddr port rest in
          ((name, d) :: printed, o)
      | o => ([], failed o)
      end
  end.

(** [main] of the later revision.  [os.Exit(1)] ends the process as
    [log.Fatalf] does; what is printed besides the durations is not
    kept. *)
Definition main (fl : Flags) (interfaces : option (list Interface))
    (world_for : string -> World) (hosts : list (string * string))
    : Report :=
  if helpParam fl then ([], Fatal "help")
  else
    let start : M string :=
      iface <- (if String.eqb (ifaceParam fl) EmptyString then
                  iface <- chooseInterface interfaces ;;
                  if String.eqb iface EmptyString
                  then fatal "Could not decide which net interface to use."
                  else ret iface
                else ret (ifaceParam fl)) ;;
      localAddr <- interfaceAddress interfaces iface ;;
      index (Split localAddr "/"%char) 0 in
    match snd start with
    | Ok laddr =>
        let port := to_uint16 (portParam fl) in
        if autoParam fl then autoTest world_for laddr port hosts
        else
          match args fl with
          | [] => ([], Fatal "Missing remote address")
          | remoteHost :: _ =>
              match result (V2.latency (world_for remoteHost) laddr
                              remoteHost port) with
              | Ok d => ([("Latency", d)], Ok tt)
              | o => ([], failed o)
              end
          end
    | o => ([], failed o)
    end.

(** ** More predicates for the statements *)

(** The earlier listener goes on after this read. *)
Definition V1_ignored (r : read_result) : bool :=
  match r with
  | ReadErr => false
  | Datagram _ payload _ =>
      match NewTCPHeader (ReadFrom_buf payload) with
      | Some tcp => negb (is_reply tcp)
      | None => false
      end
  end.

(** The earlier listener stops at this read. *)
Definition V1_answers (r : read_result) : bool :=
  match r with
  | ReadErr => false
  | Datagram _ payload _ =>
      match NewTCPHeader (ReadFrom_buf payload) with
      | Some tcp => is_reply tcp
      | None => false
      end
  end.

(** A datagram whose source is not the remote address. *)
Definition from_elsewhere (remoteAddress : string) (r : read_result) : bool :=
  match r with
  | ReadErr => false
  | Datagram src _ _ => negb (String.eqb src remoteAddress)
  end.

(** The events a listener may perform. *)
Definition listener_event (e : event) : bool :=
  match e with
  | EvResolveIPAddr _ | EvListenIP _ | EvReadFrom _ _ | EvCompareAddr _
  | EvNow _ | EvDecode _ | EvFatal _ => true
  | _ => false
  end.

Definition is_close (e : event) : bool :=
  match e with EvClose => true | _ => false end.

Definition is_now (e : event) : bool :=
  match e with EvNow _ => true | _ => false end.

(** The number of dot-separated parts of an address. *)
Definition parts_count (addr : string) : nat :=
  List.length (Split addr "."%char).

(** The value of an octet written in decimal digits. *)
Definition octet_value (s : string) : Z :=
  match digits_value s 0 with
  | Some v => v
  | None => 0
  end.

(** A world in which the listening socket fails after one stray
    datagram. *)
Definition read_error_world : World :=
  {| lookup_host := lookup_host sample_world;
     rand_uint32 := 12345;
     resolve_ok := true;
     listen_ok := true;
     inbound := [Datagram "10.0.0.9" synack_bytes 100; ReadErr;
                 Datagram "10.0.0.2" synack_bytes 120];
     dial_ok := true;
     send_clock := 50;
     write_result := write_result sample_world |}.

(** A world in which the remote address cannot be dialled. *)
Definition no_dial_world : World :=
  {| lookup_host := lookup_host sample_world;
     rand_uint32 := 12345;
     resolve_ok := true;
     listen_ok := true;
     inbound := inbound sample_world;
     dial_ok := false;
     send_clock := 50;
     write_result := write_result sample_world |}.

(** A world in which nobody answers. *)
Definition silent_world : World :=
  {| lookup_host := lookup_host sample_world;
     rand_uint32 := 12345;
     resolve_ok := true;
     listen_ok := true;
     inbound := [Datagram "10.0.0.9" synack_bytes 100;
                 Datagram "10.0.0.2" ack_bytes 110];
     dial_ok := true;
     send_clock := 50;
     write_result := write_result sample_world |}.

(** Interfaces of a sample machine. *)
Definition sample_interfaces : list Interface :=
  [ mkInterface "lo" (Some ["127.0.0.1/8"]);
    mkInterface "tun0" None;
    mkInterface "eth1" (Some []);
    mkInterface "eth0" (Some ["192.168.1.30/24"; "fe80::1/64"]);
    mkInterface "wlan0" (Some ["10.0.0.1/8"]) ].

(** What [main] and [autoTest] print for one measurement that returned,
    and how they end for one that did not. *)
Definition report_of (label : string) (o : outcome Z) : Report :=
  match o with
  | Ok d => ([(label, d)], Ok tt)
  | _ => ([], failed o)
  end.

(** The line of [autoTest] for a host, should its measurement return. *)
Definition measured (world_for : string -> World) (localAddr : string)
    (port : Z) (entry : string * string) : string * Z :=
  (fst entry,
   match result (V2.latency (world_for (snd entry)) localAddr (snd entry)
                   port) with
   | Ok d => d
   | _ => 0
   end).

Definition returns (world_for : string -> World) (localAddr : string)
    (port : Z) (entry : string * string) : bool :=
  match result (V2.latency (world_for (snd entry)) localAddr (snd entry)
                  port) with
  | Ok _ => true
  | _ => false
  end.

(** The text has no such character. *)
Definition free_of (sep : ascii) (s : string) : bool :=
  forallb (fun c => negb (Ascii.eqb c sep)) (list_ascii_of_string s).

(** The worlds of an automatic test in which Google answers with a RST and
    nothing else resolves. *)
Definition auto_worlds (host : string) : World :=
  if String.eqb host "google.com" then
    {| lookup_host := fun _ => Some ["10.0.0.2"];
       rand_uint32 := 12345;
       resolve_ok := true;
       listen_ok := true;
       inbound := [Datagram "10.0.0.2" rst_bytes 120];
       dial_ok := true;
       send_clock := 50;
       write_result := write_result sample_world |}
  else no_dns_world.

(** * Properties *)

(** ** Bits and bytes *)

Lemma testbit_below (a k i : Z) :
  0 <= a < 2 ^ k -> k <= i -> Z.testbit a i = false.
Proof.
  intros [H0 H1] Hi.
  destruct (Z.eq_dec a 0) as [->|Hne]; [apply Z.bits_0|].
  assert (0 <= k).
  { destruct (Z.le_gt_cases 0 k); [assumption|].
    rewrite Z.pow_neg_r in H1; lia. }
  apply Z.bits_above_log2; [lia|].
  apply Z.lt_le_trans with k; [|lia].
  apply Z.log2_lt_pow2; lia.
Qed.

Lemma lor_add (a b k : Z) :
  0 <= k -> a mod 2 ^ k = 0 -> 0 <= b < 2 ^ k -> Z.lor a b = a + b.
Proof.
  intros Hk Ha Hb.
  assert (Hdisj : Z.land a b = 0).
  { apply Z.bits_inj'; intros i Hi.
    rewrite Z.land_spec, Z.bits_0.
    destruct (Z.lt_ge_cases i k).
    - rewrite <- (Z.mod_pow2_bits_low a k i), Ha, Z.bits_0 by lia.
      reflexivity.
    - rewrite (testbit_below b k i) by lia. apply andb_false_r. }
  rewrite <- Z.lxor_lor by assumption.
  symmetry. apply Z.add_nocarry_lxor. assumption.
Qed.

Lemma to_byte_mod v : to_byte v = v mod 256.
Proof.
  unfold to_byte. change 255 with (Z.ones 8).
  now rewrite Z.land_ones by lia.
Qed.

Lemma to_byte_range v : 0 <= to_byte v < 256.
Proof. rewrite to_byte_mod. apply Z.mod_pos_bound. lia. Qed.

Ltac divmod := Z.to_euclidean_division_equations; lia.

Lemma get_uint16_add b0 b1 :
  0 <= b1 < 256 -> get_uint16 b0 b1 = b0 * 256 + b1.
Proof.
  intros H. unfold get_uint16. rewrite Z.shiftl_mul_pow2 by lia.
  change (2 ^ 8) with 256.
  apply (lor_add _ _ 8); [lia| change (2 ^ 8) with 256; divmod | assumption].
Qed.

Lemma get_uint32_add b0 b1 b2 b3 :
  0 <= b1 < 256 -> 0 <= b2 < 256 -> 0 <= b3 < 256 ->
  get_uint32 b0 b1 b2 b3 = b0 * 16777216 + b1 * 65536 + b2 * 256 + b3.
Proof.
  intros H1 H2 H3. unfold get_uint32. rewrite !Z.shiftl_mul_pow2 by lia.
  change (2 ^ 8) with 256. change (2 ^ 16) with 65536.
  change (2 ^ 24) with 16777216.
  rewrite (lor_add _ (b1 * 65536) 24);
    [| lia | change (2 ^ 24) with 16777216; divmod
     | change (2 ^ 24) with 16777216; lia].
  rewrite (lor_add _ (b2 * 256) 16);
    [| lia | change (2 ^ 16) with 65536; divmod
     | change (2 ^ 16) with 65536; lia].
  apply (lor_add _ _ 8); [lia | change (2 ^ 8) with 256; divmod | assumption].
Qed.

Lemma get_put_uint16 v : 0 <= v < 65536 ->
  get_uint16 (to_byte (Z.shiftr v 8)) (to_byte v) = v.
Proof.
  intros Hv. rewrite get_uint16_add by apply to_byte_range.
  rewrite !to_byte_mod, Z.shiftr_div_pow2 by lia.
  change (2 ^ 8) with 256. divmod.
Qed.

Lemma get_put_uint32 v : 0 <= v < 4294967296 ->
  get_uint32 (to_byte (Z.shiftr v 24)) (to_byte (Z.shiftr v 16))
             (to_byte (Z.shiftr v 8)) (to_byte v) = v.
Proof.
  intros Hv. rewrite get_uint32_add by apply to_byte_range.
  rewrite !to_byte_mod, !Z.shiftr_div_pow2 by lia.
  change (2 ^ 8) with 256. change (2 ^ 16) with 65536.
  change (2 ^ 24) with 16777216. divmod.
Qed.

Lemma in_small_range (n : nat) (x : Z) :
  0 <= x < Z.of_nat n -> In x (map Z.of_nat (seq 0 n)).
Proof.
  intros Hx. rewrite <- (Z2Nat.id x) by lia.
  apply in_map, in_seq. lia.
Qed.

Lemma all_below_spec n p x :
  all_below n p = true -> 0 <= x < Z.of_nat n -> p x = true.
Proof.
  unfold all_below. rewrite forallb_forall. intros H Hx.
  apply H, in_small_range, Hx.
Qed.

Lemma packed_fields_all :
  all_below 16 (fun d => all_below 8 (fun r => all_below 8 (fun e =>
    all_below 64 (fun c => packed_fields_ok d r e c)))) = true.
Proof. vm_compute. reflexivity. Qed.

Lemma packed_fields d r e c :
  0 <= d < 16 -> 0 <= r < 8 -> 0 <= e < 8 -> 0 <= c < 64 ->
  packed_fields_ok d r e c = true.
Proof.
  intros Hd Hr He Hc.
  pose proof packed_fields_all as H.
  apply (all_below_spec _ _ d) in H; [|exact Hd].
  apply (all_below_spec _ _ r) in H; [|exact Hr].
  apply (all_below_spec _ _ e) in H; [|exact He].
  apply (all_below_spec _ _ c) in H; [|exact Hc].
  exact H.
Qed.

(** ** The codec *)

Lemma Marshal_length h :
  List.length (Marshal h) = (20 + List.length (Options h))%nat.
Proof. reflexivity. Qed.

(** C1. Round-trip codec law: decoding the encoding of a validly
    constructed segment with dataOffset 5 and no options gives the segment
    back, every field included (ports, sequence and acknowledgment numbers,
    dataOffset, reserved, flags, window, checksum, urgent pointer). *)
Theorem roundtrip_codec (h : TCPHeader) :
  valid_segment h -> NewTCPHeader (Marshal h) = Some h.
Proof.
  destruct h as [s d q a off r e c w ck u o].
  unfold valid_segment; cbn [Source Destination SeqNum AckNum DataOffset
    Reserved ECN Ctrl Window Checksum Urgent Options].
  intros (Hs & Hd & Hq & Ha & Hoff & Hr & He & Hc & Hw & Hck & Hu & Ho).
  subst o.
  assert (Hp := packed_fields off r e c ltac:(lia) Hr He Hc).
  unfold packed_fields_ok in Hp.
  cbn [Marshal NewTCPHeader put_uint16 put_uint32 app Source Destination
       SeqNum AckNum DataOffset Reserved ECN Ctrl Window Checksum Urgent
       Options] in Hp |- *.
  unfold flags in Hp |- *.
  cbn [DataOffset Reserved ECN Ctrl] in Hp |- *.
  rewrite !get_put_uint16, !get_put_uint32 by assumption.
  rewrite !andb_true_iff, !Z.eqb_eq in Hp.
  destruct Hp as (((-> & ->) & ->) & ->).
  reflexivity.
Qed.

Lemma roundtrip_codec_witness :
  valid_segment (synPacket 80 12345) /\
  NewTCPHeader (Marshal (synPacket 80 12345)) = Some (synPacket 80 12345).
Proof.
  assert (H : valid_segment (synPacket 80 12345))
    by (unfold valid_segment, synPacket; cbn; repeat split;
        try lia; reflexivity).
  split; [exact H | exact (roundtrip_codec _ H)].
Defined.



(** ** The probe sender *)

Lemma sendSyn_with_eq to4byte w laddr raddr port :
  sendSyn_with to4byte w laddr raddr port =
  (l4 <- to4byte laddr ;;
   r4 <- to4byte raddr ;;
   transmit w raddr (probe_bytes port (rand_uint32 w) l4 r4)).
Proof. reflexivity. Qed.

Lemma V1_to4byte_quiet addr : quiet (V1.to4byte addr).
Proof.
  unfold V1.to4byte, index, bind, ret, panic.
  destruct (Split addr ".") as [|p0 [|p1 [|p2 [|p3 ps]]]]; cbn;
    repeat match goal with |- context [Atoi ?p] => destruct (Atoi p) end;
    cbn; auto.
Qed.

Lemma V2_to4byte_quiet addr : quiet (V2.to4byte addr).
Proof.
  unfold V2.to4byte, index, bind, ret, panic, fatal.
  destruct (Split addr ".") as [|p0 [|p1 [|p2 [|p3 ps]]]]; cbn;
    repeat match goal with
           | |- context [Atoi ?p] => destruct (Atoi p) as [? []]
           end;
    cbn; auto.
Qed.

Lemma transmit_cases w raddr data :
  let n := fst (write_result w data) in
  let err := snd (write_result w data) in
  transmit w raddr data =
  if dial_ok w then
    if err then
      ([EvDial raddr; EvNow (send_clock w); EvWrite data n true;
        EvFatal "Write"], Fatal "Write")
    else if n =? Z.of_nat (List.length data) then
      ([EvDial raddr; EvNow (send_clock w); EvWrite data n false; EvClose],
       Ok (send_clock w))
    else
      ([EvDial raddr; EvNow (send_clock w); EvWrite data n false;
        EvFatal "Short write"], Fatal "Short write")
  else ([EvDial raddr; EvFatal "Dial"], Fatal "Dial").
Proof.
  unfold transmit, Dial, Now, Write, bind, emit, ret, fatal.
  destruct (write_result w data) as [n err]; cbn.
  destruct (dial_ok w); cbn; [|reflexivity].
  destruct err; cbn; [reflexivity|].
  destruct (n =? Z.of_nat (List.length data)); reflexivity.
Qed.

Lemma transmit_writes w raddr data data' n err :
  In (EvWrite data' n err) (fst (transmit w raddr data)) ->
  data' = data /\ n = fst (write_result w data) /\
  err = snd (write_result w data) /\ dial_ok w = true.
Proof.
  rewrite transmit_cases.
  destruct (dial_ok w), (snd (write_result w data)),
    (fst (write_result w data) =? Z.of_nat (List.length data)); cbn;
    intros H; repeat (destruct H as [H|H]; try discriminate H);
    try contradiction; injection H as <- <- <-; auto.
Qed.

Section Sender.

Variable to4byte : string -> M (list byte).
Hypothesis to4byte_quiet : forall addr, quiet (to4byte addr).

(** The ways [sendSyn] can go: both addresses convert and the bytes are
    transmitted, or a conversion ends the process before any socket
    call. *)
Lemma sendSyn_cases w laddr raddr port :
  (exists l4 r4,
     to4byte laddr = ([], Ok l4) /\ to4byte raddr = ([], Ok r4) /\
     sendSyn_with to4byte w laddr raddr port =
     transmit w raddr (probe_bytes port (rand_uint32 w) l4 r4)) \/
  (exists msg,
     sendSyn_with to4byte w laddr raddr port = ([EvFatal msg], Fatal msg) \/
     sendSyn_with to4byte w laddr raddr port = ([EvPanic msg], Panic msg)).
Proof.
  rewrite sendSyn_with_eq.
  pose proof (to4byte_quiet laddr) as Hl.
  pose proof (to4byte_quiet raddr) as Hr.
  unfold quiet in Hl, Hr.
  destruct (to4byte laddr) as [tl [l4|ml|ml| |]]; try contradiction.
  - destruct Hl as [-> _].
    destruct (to4byte raddr) as [tr [r4|mr|mr| |]]; try contradiction.
    + destruct Hr as [-> _]. left. exists l4, r4.
      repeat split. unfold bind.
      destruct (transmit w raddr _) as [t o]. reflexivity.
    + subst tr. right. exists mr. left. reflexivity.
    + subst tr. right. exists mr. right. reflexivity.
  - subst tl. right. exists ml. left. reflexivity.
  - subst tl. right. exists ml. right. reflexivity.
Qed.

(** Whatever [sendSyn] writes is the segment carrying the checksum that
    was computed over its serialization with a zero checksum field. *)
Lemma sendSyn_written w laddr raddr port data n err :
  In (EvWrite data n err) (fst (sendSyn_with to4byte w laddr raddr port)) ->
  exists l4 r4,
    to4byte laddr = ([], Ok l4) /\ to4byte raddr = ([], Ok r4) /\
    data = probe_bytes port (rand_uint32 w) l4 r4 /\
    sendSyn_with to4byte w laddr raddr port = transmit w raddr data /\
    n = fst (write_result w data) /\ err = snd (write_result w data) /\
    dial_ok w = true.
Proof.
  destruct (sendSyn_cases w laddr raddr port)
    as [(l4 & r4 & Hl & Hr & ->) | (msg & [-> | ->])].
  - intros H. exists l4, r4.
    destruct (transmit_writes _ _ _ _ _ _ H) as (-> & -> & -> & Hd).
    repeat split; assumption.
  - cbn. intros [H|[]]. discriminate H.
  - cbn. intros [H|[]]. discriminate H.
Qed.

End Sender.




(** The earlier revision writes the same bytes. *)
Lemma V1_sendSyn_checksum_substituted w laddr raddr port data n err :
  In (EvWrite data n err) (fst (V1.sendSyn w laddr raddr port)) ->
  exists l4 r4,
    V1.to4byte laddr = ([], Ok l4) /\ V1.to4byte raddr = ([], Ok r4) /\
    data = probe_bytes port (rand_uint32 w) l4 r4.
Proof.
  intros H.
  destruct (sendSyn_written V1.to4byte V1_to4byte_quiet _ _ _ _ _ _ _ H)
    as (l4 & r4 & Hl & Hr & -> & _).
  exists l4, r4. auto.
Qed.


(** The probe of the sample world goes out: twenty bytes, SYN set. *)
Example sendSyn_sample :
  V2.sendSyn sample_world "10.0.0.1" "10.0.0.2" 80 =
  ([EvDial "10.0.0.2"; EvNow 50;
    EvWrite [170; 71; 0; 80; 0; 0; 48; 57; 0; 0; 0; 0; 80; 2; 170; 170;
             22; 101; 0; 0] 20 false;
    EvClose], Ok 50).
Proof. vm_compute. reflexivity. Qed.

Lemma latency_result_of_sendSyn_fatal w localAddr remoteHost port
    remoteAddr more msg :
  lookup_host w remoteHost = Some (remoteAddr :: more) ->
  snd (V2.sendSyn w localAddr remoteAddr port) = Fatal msg ->
  result (V2.latency w localAddr remoteHost port) = Fatal msg.
Proof.
  intros Hl Hs. unfold V2.latency, V2.latency_thread. cbn [result].
  rewrite Hl. cbn.
  destruct (V2.sendSyn w localAddr remoteAddr port) as [t o].
  cbn in Hs. subst o. reflexivity.
Qed.

(** C9. A write that returns an error, or a count other than the length of
    the data (a short write), ends [sendSyn] by [log.Fatalf]: it returns no
    send time, and the measurement that called it produces no latency. *)
Theorem sendSyn_write_failure_fatal w laddr raddr port data n err :
  In (EvWrite data n err) (fst (V2.sendSyn w laddr raddr port)) ->
  err = true \/ n <> Z.of_nat (List.length data) ->
  (exists msg, snd (V2.sendSyn w laddr raddr port) = Fatal msg) /\
  (forall t, snd (V2.sendSyn w laddr raddr port) <> Ok t) /\
  (forall host more,
     lookup_host w host = Some (raddr :: more) ->
     exists msg, result (V2.latency w laddr host port) = Fatal msg).
Proof.
  intros H Hbad.
  destruct (sendSyn_written V2.to4byte V2_to4byte_quiet _ _ _ _ _ _ _ H)
    as (l4 & r4 & _ & _ & _ & Heq & Hn & He & Hd).
  assert (Hf : exists msg, snd (V2.sendSyn w laddr raddr port) = Fatal msg).
  { unfold V2.sendSyn. rewrite Heq, transmit_cases, Hd, <- He, <- Hn.
    destruct err.
    - eexists. reflexivity.
    - destruct Hbad as [Hbad|Hbad]; [discriminate Hbad|].
      apply Z.eqb_neq in Hbad. rewrite Hbad. eexists. reflexivity. }
  destruct Hf as [msg Hf]. split; [exists msg; exact Hf|]. split.
  - intros t Ht. rewrite Hf in Ht. discriminate Ht.
  - intros host more Hl. exists msg.
    eapply latency_result_of_sendSyn_fatal; eassumption.
Qed.

Lemma sendSyn_write_failure_fatal_witness :
  (exists msg,
     snd (V2.sendSyn short_write_world "10.0.0.1" "10.0.0.2" 80) = Fatal msg) /\
  (forall t,
     snd (V2.sendSyn short_write_world "10.0.0.1" "10.0.0.2" 80) <> Ok t) /\
  (forall host more,
     lookup_host short_write_world host = Some ("10.0.0.2" :: more) ->
     exists msg,
       result (V2.latency short_write_world "10.0.0.1" host 80) = Fatal msg).
Proof.
  apply (sendSyn_write_failure_fatal short_write_world "10.0.0.1" "10.0.0.2"
           80 (probe_bytes 80 12345 [10; 0; 0; 1] [10; 0; 0; 2]) 10 false).
  - vm_compute. right. right. left. reflexivity.
  - right. vm_compute. discriminate.
Defined.

(** ** Address conversion *)

(** [strings.Split] gives at least one part, so [parts[0]] is there. *)
Lemma Split_nonempty s sep : Split s sep <> [].
Proof.
  destruct s as [|c r]; cbn; [discriminate|].
  destruct (Ascii.eqb c sep); [discriminate|].
  destruct (Split r sep); discriminate.
Qed.

Lemma V2_to4byte_first_part addr :
  first_part_rejected addr ->
  V2.to4byte addr = ([EvFatal "to4byte"], Fatal "to4byte").
Proof.
  unfold first_part_rejected, V2.to4byte.
  pose proof (Split_nonempty addr ".") as Hne.
  destruct (Split addr ".") as [|p0 ps]; cbn.
  - contradiction.
  - destruct (Atoi p0) as [b0 err]. cbn. intros ->. reflexivity.
Qed.

Lemma digits_value_colon s acc :
  In ":"%char (list_ascii_of_string s) -> digits_value s acc = None.
Proof.
  revert acc. induction s as [|c s IH]; intros acc; cbn.
  - intros [].
  - intros [->|H]; [reflexivity|].
    destruct (digit_of c); [apply IH, H|reflexivity].
Qed.

(** A part that holds a colon is no number for [Atoi]. *)
Lemma Atoi_colon s :
  In ":"%char (list_ascii_of_string s) -> snd (Atoi s) = true.
Proof.
  intros H. unfold Atoi.
  assert (Hs : digits_value s 0 = None) by (apply digits_value_colon, H).
  destruct s as [|c r]; [destruct H|].
  assert (Hr : c <> ":"%char -> digits_value r 0 = None).
  { intros Hc. apply digits_value_colon.
    cbn in H. destruct H as [H|H]; [congruence|exact H]. }
  destruct (Ascii.eqb_spec c "-") as [->|Hm].
  - rewrite Hr by discriminate. destruct r; reflexivity.
  - destruct (Ascii.eqb_spec c "+") as [->|Hp].
    + rewrite Hr by discriminate. destruct r; reflexivity.
    + assert (Hgen : snd (match digits_value (String c r) 0 with
                          | Some n =>
                              if n >? maxInt then (maxInt, true)
                              else if n <? minInt then (minInt, true)
                              else (n, false)
                          | None => (0, true)
                          end) = true) by (rewrite Hs; reflexivity).
      destruct c as [[] [] [] [] [] [] [] []]; try exact Hgen;
        congruence.
Qed.

Lemma sendSyn_exit_nothing_sent (m : M Z) msg :
  m = ([EvFatal msg], Fatal msg) \/ m = ([EvPanic msg], Panic msg) ->
  nothing_sent (fst m) = true /\ forall t, snd m <> Ok t.
Proof. intros [-> | ->]; split; try reflexivity; discriminate. Qed.

(** The earlier [to4byte] has no guard at all: it never ends by
    [log.Fatalf]. *)
Lemma V1_to4byte_never_fatal addr msg : snd (V1.to4byte addr) <> Fatal msg.
Proof.
  unfold V1.to4byte, index, bind, ret, panic.
  destruct (Split addr ".") as [|p0 [|p1 [|p2 [|p3 ps]]]]; cbn;
    repeat match goal with |- context [Atoi ?p] => destruct (Atoi p) end;
    cbn; discriminate.
Qed.

(** C8, as the code has it.  The later [to4byte] guards its first part
    only: an address whose first dot-separated part [Atoi] refuses (any
    address with a colon there, as in an IPv6 literal) ends the process, and
    [sendSyn] then opens no socket and writes nothing, whichever of its two
    addresses it is.  With a first part that parses and at least four parts,
    the errors of the other three conversions are dropped: each octet is
    the low byte of whatever [Atoi] returned.  The earlier [to4byte]
    never ends by [log.Fatalf]. *)
Theorem to4byte_guards_first_part addr :
  (first_part_rejected addr ->
     V2.to4byte addr = ([EvFatal "to4byte"], Fatal "to4byte") /\
     forall w other port,
       (nothing_sent (fst (V2.sendSyn w addr other port)) = true /\
        forall t, snd (V2.sendSyn w addr other port) <> Ok t) /\
       (nothing_sent (fst (V2.sendSyn w other addr port)) = true /\
        forall t, snd (V2.sendSyn w other addr port) <> Ok t)) /\
  (In ":"%char (list_ascii_of_string (hd EmptyString (Split addr "."%char))) ->
     first_part_rejected addr) /\
  (forall p0 p1 p2 p3 more,
     Split addr "."%char = p0 :: p1 :: p2 :: p3 :: more ->
     snd (Atoi p0) = false ->
     V2.to4byte addr =
       ([], Ok [to_byte (fst (Atoi p0)); to_byte (fst (Atoi p1));
                to_byte (fst (Atoi p2)); to_byte (fst (Atoi p3))])) /\
  (forall msg, snd (V1.to4byte addr) <> Fatal msg).
Proof.
  split; [|split; [|split]]; [| | |apply V1_to4byte_never_fatal].
  - intros Hbad. pose proof (V2_to4byte_first_part addr Hbad) as Hf.
    split; [exact Hf|]. intros w other port. split.
    + destruct (sendSyn_cases V2.to4byte V2_to4byte_quiet w addr other port)
        as [(l4 & r4 & Hl & _) | (msg & Hm)].
      * rewrite Hf in Hl. discriminate Hl.
      * eapply sendSyn_exit_nothing_sent, Hm.
    + destruct (sendSyn_cases V2.to4byte V2_to4byte_quiet w other addr port)
        as [(l4 & r4 & _ & Hr & _) | (msg & Hm)].
      * rewrite Hf in Hr. discriminate Hr.
      * eapply sendSyn_exit_nothing_sent, Hm.
  - intros H. apply Atoi_colon, H.
  - intros p0 p1 p2 p3 more Hs He. unfold V2.to4byte. rewrite Hs. cbn.
    destruct (Atoi p0) as [b0 e0]. cbn in He. subst e0.
    destruct (Atoi p1), (Atoi p2), (Atoi p3). reflexivity.
Qed.

Lemma to4byte_guards_first_part_witness :
  V2.to4byte "2001:db8::1" = ([EvFatal "to4byte"], Fatal "to4byte") /\
  nothing_sent (fst (V2.sendSyn sample_world "10.0.0.1" "2001:db8::1" 80))
    = true /\
  V2.to4byte "10.0.0.2" = ([], Ok [10; 0; 0; 2]).
Proof.
  destruct (to4byte_guards_first_part "2001:db8::1")
    as (Hrej & Hcolon & _ & _).
  assert (Hbad : first_part_rejected "2001:db8::1").
  { apply Hcolon. vm_compute. do 4 right. left. reflexivity. }
  destruct (Hrej Hbad) as [Hf Hs].
  split; [exact Hf|]. split.
  - exact (proj1 (proj2 (Hs sample_world "10.0.0.1" 80))).
  - destruct (to4byte_guards_first_part "10.0.0.2") as (_ & _ & Hok & _).
    exact (Hok "10" "0" "0" "2" [] eq_refl eq_refl).
Defined.

(** The claim fails as stated: "1.x.y.z" is no dotted quad, yet [to4byte]
    turns it into 1.0.0.0 and [sendSyn] dials and writes a segment whose
    checksum was computed with those bytes. *)
Lemma malformed_address_not_rejected :
  is_dotted_quad "1.x.y.z" = false /\
  V2.to4byte "1.x.y.z" = ([], Ok [1; 0; 0; 0]) /\
  V2.sendSyn sample_world "10.0.0.1" "1.x.y.z" 80 =
    ([EvDial "1.x.y.z"; EvNow 50;
      EvWrite (probe_bytes 80 12345 [10; 0; 0; 1] [1; 0; 0; 0]) 20 false;
      EvClose], Ok 50).
Proof. vm_compute. repeat split. Qed.



(** ** The reply listener *)

Arguments ReadFrom_buf : simpl never.

Lemma openListener_cases w addr :
  openListener w addr =
  if resolve_ok w then
    if listen_ok w then ([EvResolveIPAddr addr; EvListenIP addr], Ok tt)
    else ([EvResolveIPAddr addr; EvListenIP addr; EvFatal "ListenIP"],
          Fatal "ListenIP")
  else ([EvResolveIPAddr addr; EvFatal "net.ResolveIPAddr"],
        Fatal "net.ResolveIPAddr").
Proof.
  unfold openListener, bind, emit, ret, fatal.
  destruct (resolve_ok w), (listen_ok w); reflexivity.
Qed.

Lemma V2_receiveSynAck_listening w localAddress remoteAddress :
  resolve_ok w = true -> listen_ok w = true ->
  V2.receiveSynAck w localAddress remoteAddress =
  ([EvResolveIPAddr localAddress; EvListenIP localAddress]
     ++ fst (V2.listen_loop remoteAddress (inbound w)),
   snd (V2.listen_loop remoteAddress (inbound w))).
Proof.
  intros Hr Hl. unfold V2.receiveSynAck.
  rewrite openListener_cases, Hr, Hl. unfold bind.
  destruct (V2.listen_loop remoteAddress (inbound w)). reflexivity.
Qed.

(** One round of the later loop on a datagram that is ignored. *)
Lemma V2_listen_loop_ignored remote src payload clock rest :
  ignored remote (Datagram src payload clock) = true ->
  exists t,
    V2.listen_loop remote (Datagram src payload clock :: rest) =
      (t ++ fst (V2.listen_loop remote rest),
       snd (V2.listen_loop remote rest)) /\
    count_reads t = 1%nat.
Proof.
  cbn [ignored V2.listen_loop]. intros H.
  destruct (String.eqb src remote); cbn [negb].
  - destruct (NewTCPHeader (ReadFrom_buf payload)) as [tcp|];
      [|discriminate H].
    apply negb_true_iff in H. rewrite H.
    destruct (V2.listen_loop remote rest) as [t o].
    eexists [_; _; _; _]. split; reflexivity.
  - destruct (V2.listen_loop remote rest) as [t o].
    eexists [_; _]. split; reflexivity.
Qed.

Lemma count_reads_app t u :
  count_reads (t ++ u) = (count_reads t + count_reads u)%nat.
Proof. unfold count_reads. now rewrite filter_app, length_app. Qed.

Lemma V2_listen_loop_skips remote pre rest :
  forallb (ignored remote) pre = true ->
  exists t,
    V2.listen_loop remote (pre ++ rest) =
      (t ++ fst (V2.listen_loop remote rest),
       snd (V2.listen_loop remote rest)) /\
    count_reads t = List.length pre.
Proof.
  induction pre as [|r pre IH]; intros H.
  - exists []. split; [|reflexivity]. cbn.
    destruct (V2.listen_loop remote rest). reflexivity.
  - cbn [forallb] in H. apply andb_true_iff in H. destruct H as [Hr Hp].
    destruct (IH Hp) as (t & Ht & Hc).
    destruct r as [|src payload clock]; [discriminate Hr|].
    destruct (V2_listen_loop_ignored remote src payload clock (pre ++ rest) Hr)
      as (t1 & Ht1 & Hc1).
    exists (t1 ++ t). split.
    + cbn [app]. rewrite Ht1, Ht. cbn [fst snd]. now rewrite app_assoc.
    + rewrite count_reads_app, Hc1, Hc. reflexivity.
Qed.

Lemma V2_listen_loop_answer remote src payload clock rest :
  answers remote (Datagram src payload clock) = true ->
  V2.listen_loop remote (Datagram src payload clock :: rest) =
    ([EvReadFrom (List.length (ReadFrom_buf payload)) src;
      EvCompareAddr true; EvNow clock; EvDecode (ReadFrom_buf payload)],
     Ok clock).
Proof.
  cbn [answers V2.listen_loop]. intros H.
  apply andb_true_iff in H. destruct H as [Hs Hd]. rewrite Hs. cbn [negb].
  destruct (NewTCPHeader (ReadFrom_buf payload)) as [tcp|];
    [|discriminate Hd].
  rewrite Hd. reflexivity.
Qed.

(** C4. The listener with a remote filter: if the reads are datagrams that
    the loop ignores (from another source, or from the remote address but
    decoding to a segment that has neither RST nor both SYN and ACK: a pure
    ACK, say), followed by a datagram from the remote address that decodes
    to a segment with RST, or with SYN and ACK, then [receiveSynAck]
    returns the clock value of that datagram; it has read every datagram up
    to that one and none after it. *)
Theorem listener_returns_first_reply
    w localAddress remoteAddress pre src payload clock rest :
  resolve_ok w = true -> listen_ok w = true ->
  inbound w = pre ++ Datagram src payload clock :: rest ->
  forallb (ignored remoteAddress) pre = true ->
  answers remoteAddress (Datagram src payload clock) = true ->
  snd (V2.receiveSynAck w localAddress remoteAddress) = Ok clock /\
  count_reads (fst (V2.receiveSynAck w localAddress remoteAddress)) =
    S (List.length pre) /\
  exists t,
    fst (V2.receiveSynAck w localAddress remoteAddress) =
    t ++ [EvReadFrom (List.length (ReadFrom_buf payload)) src;
          EvCompareAddr true; EvNow clock; EvDecode (ReadFrom_buf payload)].
Proof.
  intros Hr Hl Hin Hpre Hans.
  rewrite V2_receiveSynAck_listening, Hin by assumption.
  destruct (V2_listen_loop_skips remoteAddress pre
              (Datagram src payload clock :: rest) Hpre) as (t & Ht & Hc).
  rewrite Ht, (V2_listen_loop_answer _ _ _ _ rest Hans).
  cbn [fst snd]. split; [reflexivity|]. split.
  - rewrite !count_reads_app, Hc. cbn. lia.
  - eexists (_ ++ t). now rewrite <- app_assoc.
Qed.

Lemma listener_returns_first_reply_witness :
  snd (V2.receiveSynAck sample_world "10.0.0.1" "10.0.0.2") = Ok 120 /\
  count_reads (fst (V2.receiveSynAck sample_world "10.0.0.1" "10.0.0.2")) =
    3%nat.
Proof.
  destruct (listener_returns_first_reply sample_world "10.0.0.1" "10.0.0.2"
              [Datagram "10.0.0.9" synack_bytes 100;
               Datagram "10.0.0.2" ack_bytes 110]
              "10.0.0.2" synack_bytes 120 [])
    as (Hres & Hcount & _);
    try reflexivity.
  split; [exact Hres | exact Hcount].
Defined.

(** A datagram from another source is ignored whatever it carries. *)
Lemma other_source_ignored remote src payload clock :
  String.eqb src remote = false ->
  ignored remote (Datagram src payload clock) = true.
Proof. intros H. cbn. now rewrite H. Qed.

(** While nothing answers, the listener stays in its loop: there is no
    timeout. *)
Lemma listener_blocks w localAddress remoteAddress :
  resolve_ok w = true -> listen_ok w = true ->
  forallb (ignored remoteAddress) (inbound w) = true ->
  snd (V2.receiveSynAck w localAddress remoteAddress) = Blocked.
Proof.
  intros Hr Hl H.
  rewrite V2_receiveSynAck_listening by assumption. cbn [snd].
  destruct (V2_listen_loop_skips remoteAddress (inbound w) [] H)
    as (t & Ht & _).
  rewrite app_nil_r in Ht. rewrite Ht. reflexivity.
Qed.

(** ** When the clock is read *)

Lemma V1_listen_loop_stamp reads :
  stamp_right_after_read (fst (V1.listen_loop reads)) = true.
Proof.
  induction reads as [|r reads IH]; [reflexivity|].
  destruct r as [|src payload clock]; [reflexivity|].
  cbn [V1.listen_loop]. unfold bind, emit, Now, ret.
  destruct (NewTCPHeader (ReadFrom_buf payload)) as [tcp|]; [|reflexivity].
  destruct (is_reply tcp); [reflexivity|].
  destruct (V1.listen_loop reads) as [t o]. exact IH.
Qed.

Lemma V2_listen_loop_stamp remote reads :
  stamp_after_filter (fst (V2.listen_loop remote reads)) = true.
Proof.
  induction reads as [|r reads IH]; [reflexivity|].
  destruct r as [|src payload clock]; [reflexivity|].
  cbn [V2.listen_loop]. unfold bind, emit, Now, ret.
  destruct (String.eqb src remote); cbn [negb].
  - destruct (NewTCPHeader (ReadFrom_buf payload)) as [tcp|]; [|reflexivity].
    destruct (is_reply tcp); [reflexivity|].
    destruct (V2.listen_loop remote reads) as [t o]. exact IH.
  - destruct (V2.listen_loop remote reads) as [t o]. exact IH.
Qed.

(** C6, as the code has it.  In the earlier listener, which has no filter,
    the clock is read right after each read, before the decoding.  In the
    later listener the comparison of the source address comes first: the
    clock is read after a comparison that succeeded and before the
    decoding, and a datagram from another source gets no time stamp. *)
Theorem listener_stamp_order w localAddress remoteAddress :
  stamp_right_after_read (fst (V1.receiveSynAck w localAddress)) = true /\
  stamp_after_filter
    (fst (V2.receiveSynAck w localAddress remoteAddress)) = true.
Proof.
  unfold V1.receiveSynAck, V2.receiveSynAck.
  rewrite openListener_cases.
  pose proof (V1_listen_loop_stamp (inbound w)) as H1.
  pose proof (V2_listen_loop_stamp remoteAddress (inbound w)) as H2.
  destruct (resolve_ok w), (listen_ok w); unfold bind;
    destruct (V1.listen_loop (inbound w)) as [t1 o1];
    destruct (V2.listen_loop remoteAddress (inbound w)) as [t2 o2];
    split; first [exact H1 | exact H2 | reflexivity].
Qed.

(** The claim fails as stated on the later listener: on one RST from the
    remote address the comparison of the addresses stands between the read
    and the reading of the clock. *)
Lemma stamp_not_right_after_read :
  fst (V2.receiveSynAck rst_world "10.0.0.1" "10.0.0.2") =
    [EvResolveIPAddr "10.0.0.1"; EvListenIP "10.0.0.1";
     EvReadFrom 20 "10.0.0.2"; EvCompareAddr true; EvNow 120;
     EvDecode rst_bytes] /\
  stamp_right_after_read
    (fst (V2.receiveSynAck rst_world "10.0.0.1" "10.0.0.2")) = false.
Proof. vm_compute. split; reflexivity. Qed.

(** ** The read buffer *)




(** A datagram of 1030 bytes: the 1024 first ones reach the decoder. *)
Example long_datagram_truncated :
  let payload := rst_bytes ++ repeat 7 1010 in
  List.length payload = 1030%nat /\
  V2.listen_loop "10.0.0.2" [Datagram "10.0.0.2" payload 5] =
    ([EvReadFrom 1024 "10.0.0.2"; EvCompareAddr true; EvNow 5;
      EvDecode (rst_bytes ++ repeat 7 1004)], Ok 5).
Proof. vm_compute. split; reflexivity. Qed.

(** ** The orchestrator *)

Lemma time_Sub_exact t u :
  minInt <= t - u <= maxInt -> time_Sub t u = t - u.
Proof.
  intros H. unfold time_Sub.
  destruct (Z.gtb_spec (t - u) maxInt); [lia|].
  destruct (Z.ltb_spec (t - u) minInt); [lia|]. reflexivity.
Qed.

Lemma V2_latency_result w localAddr remoteHost port remoteAddr more
    receiveTime sendTime :
  lookup_host w remoteHost = Some (remoteAddr :: more) ->
  snd (V2.receiveSynAck w localAddr remoteAddr) = Ok receiveTime ->
  snd (V2.sendSyn w localAddr remoteAddr port) = Ok sendTime ->
  result (V2.latency w localAddr remoteHost port) =
    Ok (time_Sub receiveTime sendTime).
Proof.
  intros Hl Hr Hs. unfold V2.latency, V2.latency_thread. cbn [result].
  rewrite Hl. cbn.
  destruct (V2.sendSyn w localAddr remoteAddr port) as [ts os].
  cbn in Hs. subst os. rewrite Hr. reflexivity.
Qed.

Lemma V1_main_result w laddr host args port addr more receiveTime sendTime :
  lookup_host w host = Some (addr :: more) ->
  snd (V1.receiveSynAck w laddr) = Ok receiveTime ->
  snd (V1.sendSyn w laddr addr port) = Ok sendTime ->
  result (V1.main w laddr (host :: args) port) =
    Ok (time_Sub receiveTime sendTime).
Proof.
  intros Hl Hr Hs. unfold V1.main, V1.main_thread. cbn [result].
  rewrite Hl. cbn.
  destruct (V1.sendSyn w laddr addr port) as [ts os].
  cbn in Hs. subst os. rewrite Hr. reflexivity.
Qed.

(** C5. The result of a measurement is [receiveTime.Sub(sendTime)] and
    nothing else: whenever the difference is a [time.Duration], negative or
    not, it is reported as it is; with the probe sent at [sendTime] and the
    reply stamped at [sendTime + delta], [delta] a positive duration, the
    result is [delta]. *)
Theorem latency_is_difference w localAddr remoteHost port remoteAddr more
    receiveTime sendTime :
  lookup_host w remoteHost = Some (remoteAddr :: more) ->
  snd (V2.receiveSynAck w localAddr remoteAddr) = Ok receiveTime ->
  snd (V2.sendSyn w localAddr remoteAddr port) = Ok sendTime ->
  result (V2.latency w localAddr remoteHost port) =
    Ok (time_Sub receiveTime sendTime) /\
  (minInt <= receiveTime - sendTime <= maxInt ->
   result (V2.latency w localAddr remoteHost port) =
     Ok (receiveTime - sendTime)) /\
  (forall delta, 0 < delta <= maxInt -> receiveTime = sendTime + delta ->
   result (V2.latency w localAddr remoteHost port) = Ok delta).
Proof.
  intros Hl Hr Hs.
  pose proof (V2_latency_result _ _ _ _ _ _ _ _ Hl Hr Hs) as H.
  split; [exact H|]. split.
  - intros Hd. rewrite H, time_Sub_exact by exact Hd. reflexivity.
  - intros delta Hd ->. rewrite H, time_Sub_exact.
    + f_equal. lia.
    + unfold minInt. lia.
Qed.

Lemma latency_is_difference_witness :
  result (V2.latency sample_world "10.0.0.1" "example.com" 80) = Ok 70.
Proof.
  destruct (latency_is_difference sample_world "10.0.0.1" "example.com" 80
              "10.0.0.2" [] 120 50 eq_refl eq_refl eq_refl)
    as (_ & _ & H).
  apply (H 70); [unfold maxInt; lia | reflexivity].
Defined.

(** A reply stamped before the send gives a negative latency. *)
Example negative_latency :
  time_Sub 50 120 = -70.
Proof. reflexivity. Qed.

(** ** Resolution failure *)

Lemma sched_In started m l t :
  sched started m l t -> forall e, In e t -> In e m \/ In e l.
Proof.
  induction 1; intros x Hx; cbn in *.
  - contradiction.
  - destruct Hx as [->|[]]. left. left. reflexivity.
  - destruct Hx as [->|Hx]; [left; left; reflexivity|].
    destruct (IHsched x Hx); [left; right; assumption | right; assumption].
  - destruct Hx as [->|Hx]; [left; left; reflexivity|].
    destruct (IHsched x Hx); [left; right; assumption | right; assumption].
  - destruct Hx as [->|Hx]; [left; left; reflexivity|].
    destruct (IHsched x Hx); [left; right; assumption | right; assumption].
  - destruct Hx as [->|[]]. right. left. reflexivity.
  - destruct Hx as [->|Hx]; [right; left; reflexivity|].
    destruct (IHsched x Hx); [left; assumption | right; right; assumption].
Qed.

Lemma V2_latency_unresolved w localAddr remoteHost port :
  lookup_host w remoteHost = None ->
  V2.latency w localAddr remoteHost port =
    {| main_trace := [EvLookupHost remoteHost; EvFatal "Error resolving"];
       listener_trace := [];
       result := Fatal "Error resolving" |}.
Proof.
  intros H. unfold V2.latency, V2.latency_thread. rewrite H. reflexivity.
Qed.

Lemma V1_listen_loop_no_dial reads :
  existsb is_dial (fst (V1.listen_loop reads)) = false.
Proof.
  induction reads as [|r reads IH]; [reflexivity|].
  destruct r as [|src payload clock]; [reflexivity|].
  cbn [V1.listen_loop]. unfold bind, emit, Now, ret.
  destruct (NewTCPHeader (ReadFrom_buf payload)) as [tcp|]; [|reflexivity].
  destruct (is_reply tcp); [reflexivity|].
  destruct (V1.listen_loop reads) as [t o]. exact IH.
Qed.

Lemma V1_receiveSynAck_no_dial w addr :
  existsb is_dial (fst (V1.receiveSynAck w addr)) = false.
Proof.
  unfold V1.receiveSynAck. rewrite openListener_cases.
  pose proof (V1_listen_loop_no_dial (inbound w)) as H.
  destruct (resolve_ok w), (listen_ok w); unfold bind;
    destruct (V1.listen_loop (inbound w)) as [t o];
    first [exact H | reflexivity].
Qed.

(** Even the earlier [main] opens no socket to send when the resolution
    fails: in none of its executions is there a [net.Dial]. *)
Lemma V1_main_unresolved_no_dial w laddr host args port t :
  lookup_host w host = None ->
  execution (V1.main w laddr (host :: args) port) t ->
  existsb is_dial t = false.
Proof.
  intros Hl Hex. unfold execution, V1.main, V1.main_thread in Hex.
  rewrite Hl in Hex. cbn in Hex.
  destruct (existsb is_dial t) eqn:E; [|reflexivity].
  apply existsb_exists in E. destruct E as (e & He & Hd).
  destruct (sched_In _ _ _ _ Hex e He) as [Hm|Hlis].
  - cbn in Hm. destruct Hm as [<-|[<-|[<-|[]]]]; discriminate Hd.
  - pose proof (V1_receiveSynAck_no_dial w laddr) as Hn.
    assert (Ht : existsb is_dial (fst (V1.receiveSynAck w laddr)) = true)
      by (apply existsb_exists; exists e; split; assumption).
    rewrite Hn in Ht. discriminate Ht.
Qed.

(** C7, as the code has it.  In [latency] the host is resolved before
    anything else: when the resolution fails the measurement ends by
    [log.Fatalf], its only execution is the failed lookup, the listener was
    never started, and no socket was opened, neither to listen nor to
    send.  The earlier [main] has started the listener by then; it opens
    no socket to send either. *)
Theorem resolution_failure_before_sockets w localAddr remoteHost port :
  lookup_host w remoteHost = None ->
  result (V2.latency w localAddr remoteHost port) = Fatal "Error resolving" /\
  execution (V2.latency w localAddr remoteHost port)
    [EvLookupHost remoteHost; EvFatal "Error resolving"] /\
  (forall t,
    execution (V2.latency w localAddr remoteHost port) t ->
    t = [EvLookupHost remoteHost; EvFatal "Error resolving"] /\
    existsb opens_socket t = false) /\
  (forall args t,
     execution (V1.main w localAddr (remoteHost :: args) port) t ->
     existsb is_dial t = false).
Proof.
  intros H.
  split; [|split; [|split]];
    [| | |intros args t; apply V1_main_unresolved_no_dial, H].
  all: rewrite (V2_latency_unresolved _ _ _ _ H);
    unfold execution; cbn [main_trace listener_trace result].
  - reflexivity.
  - apply sched_main; try discriminate; try reflexivity.
    apply sched_main_exit. reflexivity.
  - intros t Ht.
    inversion Ht as [ | ? e m l He | | | ? e m l t' He Hgo Hw Hrest | | ];
      subst; try discriminate.
    inversion Hrest
      as [ | ? e1 m1 l1 He1 | | | ? e1 m1 l1 t1 He1 Hgo1 Hw1 Hrest1 | | ];
      subst; try discriminate.
    split; reflexivity.
Qed.

Lemma resolution_failure_before_sockets_witness :
  result (V2.latency no_dns_world "10.0.0.1" "example.com" 80) =
    Fatal "Error resolving" /\
  execution (V2.latency no_dns_world "10.0.0.1" "example.com" 80)
    [EvLookupHost "example.com"; EvFatal "Error resolving"].
Proof.
  destruct (resolution_failure_before_sockets no_dns_world "10.0.0.1"
              "example.com" 80 eq_refl) as (Hres & Hex & _ & _).
  split; [exact Hres | exact Hex].
Defined.

(** The claim fails as stated on the earlier [main], which starts the
    listener before it resolves the host: in this execution the listening
    socket is open when the failed resolution ends the process. *)
Lemma listener_open_before_resolution_failure :
  lookup_host no_dns_world "example.com" = None /\
  result (V1.main no_dns_world "10.0.0.1" ["example.com"] 80) =
    Fatal "LookupHost" /\
  execution (V1.main no_dns_world "10.0.0.1" ["example.com"] 80)
    [EvGo; EvResolveIPAddr "10.0.0.1"; EvListenIP "10.0.0.1";
     EvLookupHost "example.com"; EvFatal "LookupHost"] /\
  existsb opens_socket
    [EvGo; EvResolveIPAddr "10.0.0.1"; EvListenIP "10.0.0.1";
     EvLookupHost "example.com"; EvFatal "LookupHost"] = true.
Proof.
  split; [reflexivity|]. split; [reflexivity|]. split; [|reflexivity].
  unfold execution.
  change (main_trace (V1.main no_dns_world "10.0.0.1" ["example.com"] 80))
    with [EvGo; EvLookupHost "example.com"; EvFatal "LookupHost"].
  set (l := listener_trace
              (V1.main no_dns_world "10.0.0.1" ["example.com"] 80)).
  vm_compute in l. subst l.
  apply sched_go.
  apply sched_listener; [reflexivity|].
  apply sched_listener; [reflexivity|].
  apply sched_main; try discriminate; try reflexivity.
  apply sched_main_exit. reflexivity.
Qed.

(** * The rest of the program *)

(** ** Choosing the interface *)

Lemma chooseInterface_loop_skips pre rest :
  forallb unusable pre = true ->
  chooseInterface_loop (pre ++ rest) = chooseInterface_loop rest.
Proof.
  induction pre as [|i pre IH]; [reflexivity|].
  cbn [forallb app chooseInterface_loop]. intros H.
  apply andb_true_iff in H. destruct H as [Hi Hp].
  unfold unusable in Hi. apply orb_true_iff in Hi.
  destruct (String.eqb (Name i) "lo"); [exact (IH Hp)|].
  destruct Hi as [Hi|Hi]; [discriminate Hi|].
  destruct (Addrs i) as [addrs|]; [|exact (IH Hp)].
  apply negb_true_iff in Hi. rewrite Hi. exact (IH Hp).
Qed.

(** X1. [chooseInterface] returns the name of the first interface that is
    not "lo", whose addresses can be read and which has at least one; the
    loopback, an interface whose [Addrs] fails and an interface without
    address before it are passed over, and nothing after it matters. *)
Theorem chooseInterface_first_usable pre iface rest :
  forallb unusable pre = true ->
  unusable iface = false ->
  chooseInterface (Some (pre ++ iface :: rest)) = ([], Ok (Name iface)).
Proof.
  intros Hpre Hi. unfold chooseInterface, ret.
  rewrite chooseInterface_loop_skips by exact Hpre.
  cbn [chooseInterface_loop]. unfold unusable in Hi.
  apply orb_false_iff in Hi. destruct Hi as [Hlo Ha]. rewrite Hlo.
  destruct (Addrs iface) as [addrs|]; [|discriminate Ha].
  apply negb_false_iff in Ha. rewrite Ha. reflexivity.
Qed.

Lemma chooseInterface_first_usable_witness :
  chooseInterface (Some sample_interfaces) = ([], Ok "eth0").
Proof.
  exact (chooseInterface_first_usable
           [mkInterface "lo" (Some ["127.0.0.1/8"]);
            mkInterface "tun0" None;
            mkInterface "eth1" (Some [])]
           (mkInterface "eth0" (Some ["192.168.1.30/24"; "fe80::1/64"]))
           [mkInterface "wlan0" (Some ["10.0.0.1/8"])]
           eq_refl eq_refl).
Defined.

Lemma chooseInterface_loop_sound l :
  chooseInterface_loop l <> EmptyString ->
  exists iface a more,
    In iface l /\ Name iface = chooseInterface_loop l /\
    Addrs iface = Some (a :: more).
Proof.
  induction l as [|i l IH]; cbn [chooseInterface_loop].
  - intros H. contradiction H. reflexivity.
  - assert (Hrec : chooseInterface_loop l <> EmptyString ->
                   exists iface a more,
                     In iface (i :: l) /\
                     Name iface = chooseInterface_loop l /\
                     Addrs iface = Some (a :: more)).
    { intros H. destruct (IH H) as (x & a & more & Hin & Hn & Ha).
      exists x, a, more. repeat split; [right|..]; assumption. }
    destruct (String.eqb (Name i) "lo"); [exact Hrec|].
    destruct (Addrs i) as [[|a more]|] eqn:Ea; cbn; try exact Hrec.
    intros _. exists i, a, more. repeat split; [left; reflexivity|exact Ea].
Qed.

Lemma chooseInterface_loop_not_lo l : chooseInterface_loop l <> "lo".
Proof.
  induction l as [|i l IH]; cbn [chooseInterface_loop]; [discriminate|].
  destruct (String.eqb_spec (Name i) "lo") as [|Hne]; [exact IH|].
  destruct (Addrs i) as [addrs|]; [|exact IH].
  destruct (0 <? List.length addrs)%nat; [exact Hne | exact IH].
Qed.

(** X2. [chooseInterface] never proposes the loopback interface "lo"; a
    name it returns, unless empty, is that of an interface of the machine
    with at least one address; when every interface is the loopback,
    unreadable or without address, it returns the empty name; an error of
    [net.Interfaces] is fatal. *)
Theorem chooseInterface_sound l :
  (forall n, snd (chooseInterface (Some l)) = Ok n ->
     n <> "lo" /\
     (n <> EmptyString ->
      exists iface a more,
        In iface l /\ Name iface = n /\ Addrs iface = Some (a :: more))) /\
  (forallb unusable l = true ->
   chooseInterface (Some l) = ([], Ok EmptyString)) /\
  chooseInterface None = ([EvFatal "net.Interfaces"], Fatal "net.Interfaces").
Proof.
  split; [|split; [|reflexivity]].
  - cbn. intros n Hn. injection Hn as <-. split.
    + apply chooseInterface_loop_not_lo.
    + apply chooseInterface_loop_sound.
  - intros H. unfold chooseInterface, ret.
    rewrite <- (app_nil_r l), chooseInterface_loop_skips by exact H.
    reflexivity.
Qed.

(** ** The address of the interface *)

Lemma find_by_name l iface :
  NoDup (map Name l) -> In iface l ->
  find (fun i => String.eqb (Name i) (Name iface)) l = Some iface.
Proof.
  induction l as [|i l IH]; [intros _ []|].
  cbn [map find]. intros Hnd Hin. inversion Hnd as [|? ? Hnotin Hnd']; subst.
  destruct Hin as [->|Hin].
  - now rewrite String.eqb_refl.
  - destruct (String.eqb_spec (Name i) (Name iface)) as [He|_].
    + exfalso. apply Hnotin. rewrite He. apply in_map, Hin.
    + apply IH; assumption.
Qed.

(** X3. What [chooseInterface] proposes, [interfaceAddress] accepts: on a
    machine whose interfaces have distinct names, a non-empty name returned
    by [chooseInterface] makes [interfaceAddress] return the first address
    of an interface of that name; it neither fails nor panics at
    [addrs[0]]. *)
Theorem interfaceAddress_of_chosen l n :
  NoDup (map Name l) ->
  snd (chooseInterface (Some l)) = Ok n ->
  n <> EmptyString ->
  exists iface a more,
    In iface l /\ Name iface = n /\ Addrs iface = Some (a :: more) /\
    interfaceAddress (Some l) n = ([], Ok a).
Proof.
  intros Hnd Hn Hne. cbn in Hn. injection Hn as <-.
  destruct (chooseInterface_loop_sound l Hne)
    as (iface & a & more & Hin & Hname & Ha).
  exists iface, a, more. repeat split; try assumption.
  unfold interfaceAddress, InterfaceByName.
  destruct (String.eqb_spec (chooseInterface_loop l) EmptyString) as [E|_];
    [contradiction|].
  rewrite <- Hname, (find_by_name l iface Hnd Hin), Ha. reflexivity.
Qed.

Lemma interfaceAddress_of_chosen_witness :
  exists iface a more,
    In iface sample_interfaces /\ Name iface = "eth0" /\
    Addrs iface = Some (a :: more) /\
    interfaceAddress (Some sample_interfaces) "eth0" = ([], Ok a).
Proof.
  apply (interfaceAddress_of_chosen sample_interfaces "eth0").
  - cbn. repeat constructor; cbn; intuition discriminate.
  - reflexivity.
  - discriminate.
Defined.

(** X4. [interfaceAddress] on a name given by hand: an unknown or empty
    name and an interface whose addresses cannot be read are fatal, and an
    interface that has no address makes it panic at [addrs[0]]; it returns
    only the first address of the first interface of that name. *)
Theorem interfaceAddress_returns l name a :
  interfaceAddress (Some l) name = ([], Ok a) <->
  exists iface more,
    name <> EmptyString /\
    find (fun i => String.eqb (Name i) name) l = Some iface /\
    Addrs iface = Some (a :: more).
Proof.
  unfold interfaceAddress, InterfaceByName. split.
  - destruct (String.eqb_spec name EmptyString) as [E|Hne];
      [discriminate|].
    destruct (find _ l) as [iface|]; [|discriminate].
    destruct (Addrs iface) as [[|a' more]|] eqn:Ea; try discriminate.
    cbn. intros H. injection H as <-. exists iface, more. auto.
  - intros (iface & more & Hne & Hf & Ha).
    destruct (String.eqb_spec name EmptyString) as [E|_]; [contradiction|].
    rewrite Hf, Ha. reflexivity.
Qed.

Example interfaceAddress_no_address :
  interfaceAddress (Some sample_interfaces) "eth1" =
    ([EvPanic "index out of range"], Panic "index out of range") /\
  interfaceAddress (Some sample_interfaces) "tun0" =
    ([EvFatal "iface.Addrs"], Fatal "iface.Addrs") /\
  interfaceAddress (Some sample_interfaces) "" =
    ([EvFatal "net.InterfaceByName"], Fatal "net.InterfaceByName").
Proof. repeat split. Qed.

(** ** Address conversion, continued *)

Lemma digits_value_ge s : forall acc v,
  0 <= acc -> digits_value s acc = Some v -> acc <= v.
Proof.
  induction s as [|c s IH]; intros acc v Hacc; cbn.
  - intros H. injection H as <-. lia.
  - destruct (digit_of c) as [d|] eqn:Hd; [|discriminate].
    intros H.
    assert (0 <= d <= 9).
    { unfold digit_of in Hd.
      destruct ((48 <=? Z.of_N (N_of_ascii c)) &&
                (Z.of_N (N_of_ascii c) <=? 57))%bool eqn:E; [|discriminate].
      injection Hd as <-. apply andb_true_iff in E. lia. }
    apply IH in H; lia.
Qed.

(** On an octet written in digits, [Atoi] returns its value and no
    error. *)
Lemma Atoi_octet s :
  is_octet s = true ->
  Atoi s = (octet_value s, false) /\ 0 <= octet_value s <= 255.
Proof.
  unfold is_octet, octet_value.
  destruct s as [|c r]; [discriminate|].
  destruct (digits_value (String c r) 0) as [v|] eqn:Hv; [|discriminate].
  intros Hle. apply Z.leb_le in Hle.
  assert (H0 : 0 <= v) by (eapply digits_value_ge; [|exact Hv]; lia).
  split; [|lia].
  assert (Hgen : (if v >? maxInt then (maxInt, true)
                  else if v <? minInt then (minInt, true)
                  else (v, false)) = (v, false)).
  { destruct (Z.gtb_spec v maxInt); [unfold maxInt in *; lia|].
    destruct (Z.ltb_spec v minInt); [unfold minInt in *; lia|].
    reflexivity. }
  assert (Hd : digit_of c <> None).
  { cbn in Hv. destruct (digit_of c); [discriminate|discriminate Hv]. }
  unfold Atoi.
  destruct c as [[] [] [] [] [] [] [] []];
    try (exfalso; apply Hd; reflexivity);
    rewrite Hv; exact Hgen.
Qed.

Lemma to_byte_small v : 0 <= v <= 255 -> to_byte v = v.
Proof. intros H. rewrite to_byte_mod. apply Z.mod_small. lia. Qed.

(** X5. On an IPv4 dotted quad (four parts, each in decimal digits and at
    most 255) both revisions of [to4byte] return the four octets, in
    order, with no event: the later guard turns no well-formed address
    away. *)
Theorem to4byte_dotted_quad addr :
  is_dotted_quad addr = true ->
  exists a b c d,
    Split addr "."%char = [a; b; c; d] /\
    V2.to4byte addr =
      ([], Ok [octet_value a; octet_value b; octet_value c; octet_value d]) /\
    V1.to4byte addr = V2.to4byte addr /\
    Forall (fun v => 0 <= v <= 255)
      [octet_value a; octet_value b; octet_value c; octet_value d].
Proof.
  unfold is_dotted_quad, V1.to4byte, V2.to4byte.
  destruct (Split addr ".") as [|a [|b [|c [|d [|e more]]]]];
    try discriminate.
  intros H. apply andb_true_iff in H. destruct H as [H Hd].
  apply andb_true_iff in H. destruct H as [H Hc].
  apply andb_true_iff in H. destruct H as [Ha Hb].
  destruct (Atoi_octet a Ha) as [Ea Ra], (Atoi_octet b Hb) as [Eb Rb],
    (Atoi_octet c Hc) as [Ec Rc], (Atoi_octet d Hd) as [Ed Rd].
  exists a, b, c, d. cbn. rewrite Ea, Eb, Ec, Ed. cbn.
  rewrite !to_byte_small by assumption.
  repeat split; try reflexivity.
  repeat (apply Forall_cons; [assumption|]). apply Forall_nil.
Qed.

Lemma to4byte_dotted_quad_witness :
  exists a b c d,
    Split "192.168.1.30" "."%char = [a; b; c; d] /\
    V2.to4byte "192.168.1.30" =
      ([], Ok [octet_value a; octet_value b; octet_value c; octet_value d]) /\
    V1.to4byte "192.168.1.30" = V2.to4byte "192.168.1.30" /\
    Forall (fun v => 0 <= v <= 255)
      [octet_value a; octet_value b; octet_value c; octet_value d].
Proof. apply (to4byte_dotted_quad "192.168.1.30"). reflexivity. Defined.



(** X7. Fewer than four parts: the earlier [to4byte] panics (index out of
    range) exactly on the addresses with fewer than four dot-separated
    parts, an IPv6 literal among them; the later one returns exactly when
    its first part is a number for [Atoi] and there are at least four
    parts, so that "10.0.0" still panics. *)
Theorem to4byte_parts addr :
  ((exists msg, snd (V1.to4byte addr) = Panic msg) <->
   (parts_count addr < 4)%nat) /\
  ((exists bs, snd (V2.to4byte addr) = Ok bs) <->
   (snd (Atoi (hd EmptyString (Split addr "."%char))) = false /\
    (4 <= parts_count addr)%nat)) /\
  (snd (Atoi (hd EmptyString (Split addr "."%char))) = false ->
   (parts_count addr < 4)%nat ->
   V2.to4byte addr =
     ([EvPanic "index out of range"], Panic "index out of range")).
Proof.
  unfold parts_count, V1.to4byte, V2.to4byte, index, bind, ret, panic, fatal.
  pose proof (Split_nonempty addr ".") as Hne.
  destruct (Split addr ".") as [|p0 [|p1 [|p2 [|p3 ps]]]];
    [contradiction|..]; cbn [hd List.length nth_error];
    destruct (Atoi p0) as [b0 e0]; cbn [snd fst];
    try destruct (Atoi p1) as [b1 e1];
    try destruct (Atoi p2) as [b2 e2];
    try destruct (Atoi p3) as [b3 e3];
    destruct e0; cbn;
    (split; [|split]);
    try split; intros;
    repeat match goal with
           | H : exists _, _ |- _ => destruct H
           | H : _ /\ _ |- _ => destruct H
           end;
    try discriminate; try lia; try reflexivity;
    try (eexists; reflexivity);
    try (split; [reflexivity|lia]).
Qed.

Lemma to4byte_parts_witness :
  V2.to4byte "10.0.0" =
    ([EvPanic "index out of range"], Panic "index out of range").
Proof.
  apply (proj2 (proj2 (to4byte_parts "10.0.0"))); [reflexivity|].
  vm_compute. lia.
Defined.

Example to4byte_three_parts :
  V2.to4byte "10.0.0" =
    ([EvPanic "index out of range"], Panic "index out of range") /\
  V1.to4byte "::1" =
    ([EvPanic "index out of range"], Panic "index out of range") /\
  V2.to4byte "1.2.3.4.5" = ([], Ok [1; 2; 3; 4]).
Proof. vm_compute. repeat split. Qed.

(** ** The reply listener, continued *)

(** How one round of each loop ends. *)
Lemma V2_listen_loop_step remote src payload clock rest :
  snd (V2.listen_loop remote (Datagram src payload clock :: rest)) =
  if String.eqb src remote then
    match NewTCPHeader (ReadFrom_buf payload) with
    | None => Undefined
    | Some tcp =>
        if is_reply tcp then Ok clock
        else snd (V2.listen_loop remote rest)
    end
  else snd (V2.listen_loop remote rest).
Proof.
  cbn [V2.listen_loop]. unfold bind, emit, Now, ret.
  destruct (String.eqb src remote); cbn [negb].
  - destruct (NewTCPHeader (ReadFrom_buf payload)) as [tcp|]; [|reflexivity].
    destruct (is_reply tcp); [reflexivity|].
    destruct (V2.listen_loop remote rest). reflexivity.
  - destruct (V2.listen_loop remote rest). reflexivity.
Qed.

Lemma V1_listen_loop_step src payload clock rest :
  snd (V1.listen_loop (Datagram src payload clock :: rest)) =
  match NewTCPHeader (ReadFrom_buf payload) with
  | None => Undefined
  | Some tcp =>
      if is_reply tcp then Ok clock else snd (V1.listen_loop rest)
  end.
Proof.
  cbn [V1.listen_loop]. unfold bind, emit, Now, ret.
  destruct (NewTCPHeader (ReadFrom_buf payload)) as [tcp|]; [|reflexivity].
  destruct (is_reply tcp); [reflexivity|].
  destruct (V1.listen_loop rest). reflexivity.
Qed.

Lemma V2_receiveSynAck_outcome w localAddress remoteAddress :
  snd (V2.receiveSynAck w localAddress remoteAddress) =
  if resolve_ok w then
    if listen_ok w then snd (V2.listen_loop remoteAddress (inbound w))
    else Fatal "ListenIP"
  else Fatal "net.ResolveIPAddr".
Proof.
  unfold V2.receiveSynAck. rewrite openListener_cases.
  destruct (resolve_ok w), (listen_ok w); unfold bind; try reflexivity.
  destruct (V2.listen_loop remoteAddress (inbound w)). reflexivity.
Qed.

Lemma V1_receiveSynAck_outcome w addr :
  snd (V1.receiveSynAck w addr) =
  if resolve_ok w then
    if listen_ok w then snd (V1.listen_loop (inbound w))
    else Fatal "ListenIP"
  else Fatal "net.ResolveIPAddr".
Proof.
  unfold V1.receiveSynAck. rewrite openListener_cases.
  destruct (resolve_ok w), (listen_ok w); unfold bind; try reflexivity.
  destruct (V1.listen_loop (inbound w)). reflexivity.
Qed.

Lemma V1_listen_loop_skips pre rest :
  forallb V1_ignored pre = true ->
  snd (V1.listen_loop (pre ++ rest)) = snd (V1.listen_loop rest).
Proof.
  induction pre as [|r pre IH]; [reflexivity|].
  cbn [forallb app]. intros H. apply andb_true_iff in H.
  destruct H as [Hr Hp].
  destruct r as [|src payload clock]; [discriminate Hr|].
  rewrite V1_listen_loop_step. cbn in Hr.
  destruct (NewTCPHeader (ReadFrom_buf payload)) as [tcp|];
    [|discriminate Hr].
  apply negb_true_iff in Hr. rewrite Hr. exact (IH Hp).
Qed.

Lemma V2_listen_loop_skips_outcome remote pre rest :
  forallb (ignored remote) pre = true ->
  snd (V2.listen_loop remote (pre ++ rest)) =
  snd (V2.listen_loop remote rest).
Proof.
  intros H. destruct (V2_listen_loop_skips remote pre rest H) as (t & -> & _).
  reflexivity.
Qed.

(** X8. The earlier listener has no filter: it returns the clock value of
    the first datagram, from whatever source, that decodes to a segment
    with RST or with SYN and ACK, the datagrams before it decoding to
    segments that are no reply.  A stranger's RST ends the measurement. *)
Theorem V1_listener_first_reply_any_source
    w addr pre src payload clock rest :
  resolve_ok w = true -> listen_ok w = true ->
  inbound w = pre ++ Datagram src payload clock :: rest ->
  forallb V1_ignored pre = true ->
  V1_answers (Datagram src payload clock) = true ->
  snd (V1.receiveSynAck w addr) = Ok clock.
Proof.
  intros Hr Hl Hin Hpre Hans.
  rewrite V1_receiveSynAck_outcome, Hr, Hl, Hin.
  rewrite V1_listen_loop_skips by exact Hpre.
  rewrite V1_listen_loop_step. cbn in Hans.
  destruct (NewTCPHeader (ReadFrom_buf payload)) as [tcp|];
    [|discriminate Hans].
  rewrite Hans. reflexivity.
Qed.

Lemma V1_listener_first_reply_any_source_witness :
  snd (V1.receiveSynAck sample_world "10.0.0.1") = Ok 100 /\
  snd (V2.receiveSynAck sample_world "10.0.0.1" "10.0.0.2") = Ok 120.
Proof.
  split; [|reflexivity].
  exact (V1_listener_first_reply_any_source sample_world "10.0.0.1"
           [] "10.0.0.9" synack_bytes 100
           [Datagram "10.0.0.2" ack_bytes 110;
            Datagram "10.0.0.2" synack_bytes 120]
           eq_refl eq_refl eq_refl eq_refl eq_refl).
Defined.

Lemma V2_listen_loop_filter remote reads :
  snd (V2.listen_loop remote
         (filter (fun r => negb (from_elsewhere remote r)) reads)) =
  snd (V2.listen_loop remote reads).
Proof.
  induction reads as [|r reads IH]; [reflexivity|].
  destruct r as [|src payload clock]; [reflexivity|].
  cbn [filter from_elsewhere]. rewrite (V2_listen_loop_step _ _ _ _ reads).
  destruct (String.eqb src remote) eqn:E; cbn [negb].
  - rewrite V2_listen_loop_step, E, IH. reflexivity.
  - exact IH.
Qed.

(** X9. Traffic from other hosts never changes what the later listener
    returns: with the datagrams whose source is not the remote address
    taken out of the input, [receiveSynAck] ends the same way, with the
    same time. *)
Theorem V2_listener_ignores_strangers w w' localAddress remoteAddress :
  resolve_ok w' = resolve_ok w -> listen_ok w' = listen_ok w ->
  inbound w' =
    filter (fun r => negb (from_elsewhere remoteAddress r)) (inbound w) ->
  snd (V2.receiveSynAck w' localAddress remoteAddress) =
  snd (V2.receiveSynAck w localAddress remoteAddress).
Proof.
  intros Hr Hl Hin. rewrite !V2_receiveSynAck_outcome, Hr, Hl, Hin.
  rewrite V2_listen_loop_filter. reflexivity.
Qed.

Lemma V2_listener_ignores_strangers_witness :
  snd (V2.receiveSynAck
         (mkWorld (lookup_host sample_world) 12345 true true
            [Datagram "10.0.0.2" ack_bytes 110;
             Datagram "10.0.0.2" synack_bytes 120]
            true 50 (write_result sample_world))
         "10.0.0.1" "10.0.0.2") =
  snd (V2.receiveSynAck sample_world "10.0.0.1" "10.0.0.2").
Proof.
  apply V2_listener_ignores_strangers; reflexivity.
Defined.

(** X10. An error of [conn.ReadFrom] is fatal in both revisions: when the
    reads before it were all passed over, the listener ends by
    [log.Fatalf] and returns no time, whatever would have arrived
    afterwards. *)
Theorem listener_read_error_fatal w localAddress remoteAddress pre rest :
  resolve_ok w = true -> listen_ok w = true ->
  inbound w = pre ++ ReadErr :: rest ->
  (forallb (ignored remoteAddress) pre = true ->
   snd (V2.receiveSynAck w localAddress remoteAddress) = Fatal "ReadFrom") /\
  (forallb V1_ignored pre = true ->
   snd (V1.receiveSynAck w localAddress) = Fatal "ReadFrom").
Proof.
  intros Hr Hl Hin. split; intros Hpre.
  - rewrite V2_receiveSynAck_outcome, Hr, Hl, Hin.
    rewrite V2_listen_loop_skips_outcome by exact Hpre. reflexivity.
  - rewrite V1_receiveSynAck_outcome, Hr, Hl, Hin.
    rewrite V1_listen_loop_skips by exact Hpre. reflexivity.
Qed.

Lemma listener_read_error_fatal_witness :
  snd (V2.receiveSynAck read_error_world "10.0.0.1" "10.0.0.2") =
    Fatal "ReadFrom".
Proof.
  destruct (listener_read_error_fatal read_error_world "10.0.0.1" "10.0.0.2"
              [Datagram "10.0.0.9" synack_bytes 100]
              [Datagram "10.0.0.2" synack_bytes 120]
              eq_refl eq_refl eq_refl) as [H _].
  apply H. reflexivity.
Defined.

Lemma V2_listen_loop_ok remote reads t :
  snd (V2.listen_loop remote reads) = Ok t ->
  exists pre src payload rest,
    reads = pre ++ Datagram src payload t :: rest /\
    forallb (ignored remote) pre = true /\
    answers remote (Datagram src payload t) = true.
Proof.
  induction reads as [|r reads IH]; [discriminate|].
  destruct r as [|src payload clock]; [discriminate|].
  rewrite V2_listen_loop_step.
  assert (Hcont : ignored remote (Datagram src payload clock) = true ->
                  snd (V2.listen_loop remote reads) = Ok t ->
                  exists pre src0 payload0 rest,
                    Datagram src payload clock :: reads =
                      pre ++ Datagram src0 payload0 t :: rest /\
                    forallb (ignored remote) pre = true /\
                    answers remote (Datagram src0 payload0 t) = true).
  { intros Hi H. destruct (IH H) as (pre & s & p & rest & -> & Hp & Ha).
    exists (Datagram src payload clock :: pre), s, p, rest.
    split; [reflexivity|]. split; [|exact Ha].
    cbn [forallb]. rewrite Hi, Hp. reflexivity. }
  cbn [ignored] in Hcont.
  destruct (String.eqb src remote) eqn:Es.
  - destruct (NewTCPHeader (ReadFrom_buf payload)) as [tcp|] eqn:Ed;
      [|discriminate].
    destruct (is_reply tcp) eqn:Er.
    + intros H. injection H as ->.
      exists [], src, payload, reads.
      split; [reflexivity|]. split; [reflexivity|].
      cbn [answers]. rewrite Es, Ed, Er. reflexivity.
    + apply Hcont. reflexivity.
  - apply Hcont. reflexivity.
Qed.

(** X11. The later listener returns a time only for a reply: if
    [receiveSynAck] returns [t], both sockets calls succeeded and [t] is
    the clock value of a datagram that came from the remote address and
    decodes to a segment with RST or with SYN and ACK, every read before
    it having been a datagram that is passed over. *)
Theorem V2_listener_returns_only_replies w localAddress remoteAddress t :
  snd (V2.receiveSynAck w localAddress remoteAddress) = Ok t ->
  resolve_ok w = true /\ listen_ok w = true /\
  exists pre src payload rest,
    inbound w = pre ++ Datagram src payload t :: rest /\
    forallb (ignored remoteAddress) pre = true /\
    answers remoteAddress (Datagram src payload t) = true.
Proof.
  rewrite V2_receiveSynAck_outcome.
  destruct (resolve_ok w); [|discriminate].
  destruct (listen_ok w); [|discriminate].
  intros H. split; [reflexivity|]. split; [reflexivity|].
  apply V2_listen_loop_ok, H.
Qed.

Lemma V2_listener_returns_only_replies_witness :
  exists pre src payload rest,
    inbound sample_world = pre ++ Datagram src payload 120 :: rest /\
    forallb (ignored "10.0.0.2") pre = true /\
    answers "10.0.0.2" (Datagram src payload 120) = true.
Proof.
  exact (proj2 (proj2 (V2_listener_returns_only_replies sample_world
                         "10.0.0.1" "10.0.0.2" 120 eq_refl))).
Defined.

Lemma V1_listen_loop_events reads :
  forallb listener_event (fst (V1.listen_loop reads)) = true.
Proof.
  induction reads as [|r reads IH]; [reflexivity|].
  destruct r as [|src payload clock]; [reflexivity|].
  cbn [V1.listen_loop]. unfold bind, emit, Now, ret.
  destruct (NewTCPHeader (ReadFrom_buf payload)) as [tcp|]; [|reflexivity].
  destruct (is_reply tcp); [reflexivity|].
  destruct (V1.listen_loop reads) as [t o]. exact IH.
Qed.

Lemma V2_listen_loop_events remote reads :
  forallb listener_event (fst (V2.listen_loop remote reads)) = true.
Proof.
  induction reads as [|r reads IH]; [reflexivity|].
  destruct r as [|src payload clock]; [reflexivity|].
  cbn [V2.listen_loop]. unfold bind, emit, Now, ret.
  destruct (String.eqb src remote); cbn [negb].
  - destruct (NewTCPHeader (ReadFrom_buf payload)) as [tcp|]; [|reflexivity].
    destruct (is_reply tcp); [reflexivity|].
    destruct (V2.listen_loop remote reads) as [t o]. exact IH.
  - destruct (V2.listen_loop remote reads) as [t o]. exact IH.
Qed.

(** X12. The listener only listens: in both revisions [receiveSynAck]
    resolves, opens the listening socket, reads, compares, reads the clock
    and decodes; it never dials, never writes, and never closes the
    connection it opened, not even when it returns.  It reads no datagram
    unless [ResolveIPAddr] and [ListenIP] both succeeded. *)
Theorem listener_only_listens w localAddress remoteAddress :
  forallb listener_event (fst (V1.receiveSynAck w localAddress)) = true /\
  forallb listener_event
    (fst (V2.receiveSynAck w localAddress remoteAddress)) = true /\
  existsb is_close
    (fst (V2.receiveSynAck w localAddress remoteAddress)) = false /\
  (resolve_ok w && listen_ok w = false ->
   count_reads (fst (V1.receiveSynAck w localAddress)) = 0%nat /\
   count_reads (fst (V2.receiveSynAck w localAddress remoteAddress)) = 0%nat).
Proof.
  assert (H12 :
    forallb listener_event (fst (V1.receiveSynAck w localAddress)) = true /\
    forallb listener_event
      (fst (V2.receiveSynAck w localAddress remoteAddress)) = true).
  { unfold V1.receiveSynAck, V2.receiveSynAck. rewrite openListener_cases.
    pose proof (V1_listen_loop_events (inbound w)) as H1.
    pose proof (V2_listen_loop_events remoteAddress (inbound w)) as H2.
    destruct (resolve_ok w), (listen_ok w); unfold bind;
      destruct (V1.listen_loop (inbound w)) as [t1 o1];
      destruct (V2.listen_loop remoteAddress (inbound w)) as [t2 o2];
      split; first [exact H1 | exact H2 | reflexivity]. }
  destruct H12 as [H1 H2]. split; [exact H1|]. split; [exact H2|]. split.
  - destruct (existsb is_close _) eqn:E; [|reflexivity].
    apply existsb_exists in E. destruct E as (e & Hin & Hc).
    rewrite forallb_forall in H2. specialize (H2 e Hin).
    destruct e; discriminate.
  - intros Hfail. unfold V1.receiveSynAck, V2.receiveSynAck.
    rewrite openListener_cases.
    destruct (resolve_ok w), (listen_ok w); try discriminate Hfail;
      split; reflexivity.
Qed.

(** ** The probe sender, continued *)

Lemma probe_bytes_length port seq l4 r4 :
  List.length (probe_bytes port seq l4 r4) = 20%nat.
Proof. reflexivity. Qed.

(** The time [sendSyn] returns is the one its clock showed. *)
Lemma sendSyn_ok_time w laddr raddr port t :
  snd (V2.sendSyn w laddr raddr port) = Ok t -> t = send_clock w.
Proof.
  unfold V2.sendSyn.
  destruct (sendSyn_cases V2.to4byte V2_to4byte_quiet w laddr raddr port)
    as [(l4 & r4 & Hl & Hr & ->) | (msg & [-> | ->])];
    [|discriminate|discriminate].
  rewrite transmit_cases.
  destruct (dial_ok w); [|discriminate].
  destruct (snd (write_result w (probe_bytes port (rand_uint32 w) l4 r4)));
    [discriminate|].
  destruct (_ =? _); [|discriminate].
  cbn. intros H. injection H as <-. reflexivity.
Qed.

(** X13. When [sendSyn] returns, both addresses were converted, the
    socket was dialled, the clock was read, the twenty bytes of the probe
    were written in one write that took them all, and the socket was
    closed, in this order and with nothing else; the time returned is the
    one read between the dial and the write. *)
Theorem sendSyn_returns w laddr raddr port t :
  snd (V2.sendSyn w laddr raddr port) = Ok t ->
  exists l4 r4,
    V2.to4byte laddr = ([], Ok l4) /\ V2.to4byte raddr = ([], Ok r4) /\
    dial_ok w = true /\
    write_result w (probe_bytes port (rand_uint32 w) l4 r4) = (20, false) /\
    t = send_clock w /\
    fst (V2.sendSyn w laddr raddr port) =
      [EvDial raddr; EvNow t;
       EvWrite (probe_bytes port (rand_uint32 w) l4 r4) 20 false; EvClose].
Proof.
  unfold V2.sendSyn.
  destruct (sendSyn_cases V2.to4byte V2_to4byte_quiet w laddr raddr port)
    as [(l4 & r4 & Hl & Hr & ->) | (msg & [-> | ->])];
    [|discriminate|discriminate].
  rewrite transmit_cases, probe_bytes_length.
  destruct (write_result w (probe_bytes port (rand_uint32 w) l4 r4))
    as [n err] eqn:Ew.
  cbn [fst snd].
  destruct (dial_ok w); [|discriminate].
  destruct err; [discriminate|].
  destruct (Z.eqb_spec n (Z.of_nat 20)) as [->|]; [|discriminate].
  cbn. intros H. injection H as <-.
  exists l4, r4. repeat split; assumption.
Qed.

Lemma sendSyn_returns_witness :
  exists l4 r4,
    V2.to4byte "10.0.0.1" = ([], Ok l4) /\
    V2.to4byte "10.0.0.2" = ([], Ok r4) /\
    dial_ok sample_world = true /\
    write_result sample_world
      (probe_bytes 80 (rand_uint32 sample_world) l4 r4) = (20, false) /\
    50 = send_clock sample_world /\
    fst (V2.sendSyn sample_world "10.0.0.1" "10.0.0.2" 80) =
      [EvDial "10.0.0.2"; EvNow 50;
       EvWrite (probe_bytes 80 (rand_uint32 sample_world) l4 r4) 20 false;
       EvClose].
Proof.
  apply (sendSyn_returns sample_world "10.0.0.1" "10.0.0.2" 80 50).
  reflexivity.
Defined.

(** X14. [sendSyn] closes its socket exactly when it returns: every way
    of failing (a conversion, the dial, the write, a short write) ends the
    process with the connection, if there is one, left open. *)
Theorem sendSyn_closes_iff_returns w laddr raddr port :
  existsb is_close (fst (V2.sendSyn w laddr raddr port)) = true <->
  exists t, snd (V2.sendSyn w laddr raddr port) = Ok t.
Proof.
  unfold V2.sendSyn.
  destruct (sendSyn_cases V2.to4byte V2_to4byte_quiet w laddr raddr port)
    as [(l4 & r4 & Hl & Hr & ->) | (msg & [-> | ->])].
  - rewrite transmit_cases.
    destruct (dial_ok w),
      (snd (write_result w (probe_bytes port (rand_uint32 w) l4 r4))),
      (fst (write_result w (probe_bytes port (rand_uint32 w) l4 r4)) =?
       Z.of_nat (List.length (probe_bytes port (rand_uint32 w) l4 r4)));
      cbn; split; try discriminate;
      try (intros [t H]; discriminate H);
      intros _; eexists; reflexivity.
  - cbn. split; [discriminate | intros [t H]; discriminate H].
  - cbn. split; [discriminate | intros [t H]; discriminate H].
Qed.

(** X15. When [net.Dial] fails, [sendSyn] ends by [log.Fatalf] without
    having read the clock or written anything. *)
Theorem sendSyn_dial_failure w laddr raddr port :
  dial_ok w = false ->
  (forall t, snd (V2.sendSyn w laddr raddr port) <> Ok t) /\
  existsb is_write (fst (V2.sendSyn w laddr raddr port)) = false /\
  existsb is_now (fst (V2.sendSyn w laddr raddr port)) = false /\
  (forall l4 r4,
     V2.to4byte laddr = ([], Ok l4) -> V2.to4byte raddr = ([], Ok r4) ->
     V2.sendSyn w laddr raddr port =
       ([EvDial raddr; EvFatal "Dial"], Fatal "Dial")).
Proof.
  intros Hd. unfold V2.sendSyn.
  assert (Hlast : forall l4 r4,
    V2.to4byte laddr = ([], Ok l4) -> V2.to4byte raddr = ([], Ok r4) ->
    sendSyn_with V2.to4byte w laddr raddr port =
      ([EvDial raddr; EvFatal "Dial"], Fatal "Dial")).
  { intros l4 r4 Hl Hr. rewrite sendSyn_with_eq, Hl, Hr. unfold bind.
    rewrite transmit_cases, Hd. reflexivity. }
  destruct (sendSyn_cases V2.to4byte V2_to4byte_quiet w laddr raddr port)
    as [(l4 & r4 & Hl & Hr & _) | (msg & [He | He])].
  - rewrite (Hlast l4 r4 Hl Hr). cbn.
    repeat split; try discriminate; intros; reflexivity.
  - split; [|split; [|split]]; try exact Hlast;
      rewrite He; cbn; try reflexivity; discriminate.
  - split; [|split; [|split]]; try exact Hlast;
      rewrite He; cbn; try reflexivity; discriminate.
Qed.

Lemma sendSyn_dial_failure_witness :
  V2.sendSyn no_dial_world "10.0.0.1" "10.0.0.2" 80 =
  ([EvDial "10.0.0.2"; EvFatal "Dial"], Fatal "Dial").
Proof.
  exact (proj2 (proj2 (proj2 (sendSyn_dial_failure no_dial_world "10.0.0.1"
                                "10.0.0.2" 80 eq_refl)))
           [10; 0; 0; 1] [10; 0; 0; 2] eq_refl eq_refl).
Defined.

(** X16. The listener does not take the probe for its reply: the bytes
    [sendSyn] writes, for any port, sequence number and addresses, decode
    to a segment with SYN alone, so that a listener that receives them
    (the probe sent to the machine itself, say) passes them over, in both
    revisions and from whatever source. *)
Theorem probe_is_no_reply port seq l4 r4 remoteAddress src clock :
  ignored remoteAddress (Datagram src (probe_bytes port seq l4 r4) clock)
    = true /\
  answers remoteAddress (Datagram src (probe_bytes port seq l4 r4) clock)
    = false /\
  V1_ignored (Datagram src (probe_bytes port seq l4 r4) clock) = true /\
  option_map (fun tcp => (HasFlag tcp SYN, HasFlag tcp ACK, HasFlag tcp RST))
    (NewTCPHeader (probe_bytes port seq l4 r4)) = Some (true, false, false).
Proof.
  unfold ignored, answers, V1_ignored, ReadFrom_buf, bufSize, probe_bytes.
  cbn. destruct (String.eqb src remoteAddress); repeat split.
Qed.

(** ** The orchestrator, continued *)

Lemma V2_latency_result_cases w localAddr remoteHost port remoteAddr more :
  lookup_host w remoteHost = Some (remoteAddr :: more) ->
  result (V2.latency w localAddr remoteHost port) =
  match snd (V2.sendSyn w localAddr remoteAddr port) with
  | Ok sendTime =>
      match snd (V2.receiveSynAck w localAddr remoteAddr) with
      | Ok receiveTime => Ok (time_Sub receiveTime sendTime)
      | o => failed o
      end
  | o => failed o
  end.
Proof.
  intros Hl. unfold V2.latency, V2.latency_thread. cbn [result].
  rewrite Hl. cbn.
  destruct (V2.sendSyn w localAddr remoteAddr port) as [ts [s| | | |]];
    try reflexivity.
  cbn. destruct (snd (V2.receiveSynAck w localAddr remoteAddr));
    reflexivity.
Qed.

(** X17. There is no timeout: when the probe went out and every datagram
    that arrives is passed over (nothing from the remote address carries
    RST or SYN and ACK), [latency] never returns. *)
Theorem latency_waits_for_ever w localAddr remoteHost port remoteAddr more t :
  lookup_host w remoteHost = Some (remoteAddr :: more) ->
  resolve_ok w = true -> listen_ok w = true ->
  forallb (ignored remoteAddr) (inbound w) = true ->
  snd (V2.sendSyn w localAddr remoteAddr port) = Ok t ->
  result (V2.latency w localAddr remoteHost port) = Blocked.
Proof.
  intros Hl Hr Hli Hin Hs.
  rewrite (V2_latency_result_cases _ _ _ _ _ _ Hl), Hs.
  rewrite (listener_blocks w localAddr remoteAddr Hr Hli Hin). reflexivity.
Qed.

Lemma latency_waits_for_ever_witness :
  result (V2.latency silent_world "10.0.0.1" "example.com" 80) = Blocked.
Proof.
  exact (latency_waits_for_ever silent_world "10.0.0.1" "example.com" 80
           "10.0.0.2" [] 50 eq_refl eq_refl eq_refl eq_refl eq_refl).
Defined.

(** X18. A failure of the listener ends the measurement although the
    probe was sent: after a read error on the listening socket [latency]
    ends by [log.Fatalf] with no duration. *)
Theorem latency_read_error w localAddr remoteHost port remoteAddr more
    pre rest t :
  lookup_host w remoteHost = Some (remoteAddr :: more) ->
  resolve_ok w = true -> listen_ok w = true ->
  inbound w = pre ++ ReadErr :: rest ->
  forallb (ignored remoteAddr) pre = true ->
  snd (V2.sendSyn w localAddr remoteAddr port) = Ok t ->
  result (V2.latency w localAddr remoteHost port) = Fatal "ReadFrom".
Proof.
  intros Hl Hr Hli Hin Hpre Hs.
  rewrite (V2_latency_result_cases _ _ _ _ _ _ Hl), Hs.
  rewrite V2_receiveSynAck_outcome, Hr, Hli, Hin.
  rewrite V2_listen_loop_skips_outcome by exact Hpre. reflexivity.
Qed.

Lemma latency_read_error_witness :
  result (V2.latency read_error_world "10.0.0.1" "example.com" 80) =
    Fatal "ReadFrom".
Proof.
  exact (latency_read_error read_error_world "10.0.0.1" "example.com" 80
           "10.0.0.2" [] [Datagram "10.0.0.9" synack_bytes 100]
           [Datagram "10.0.0.2" synack_bytes 120] 50
           eq_refl eq_refl eq_refl eq_refl eq_refl eq_refl).
Defined.

(** X19. A duration is reported only for a real exchange: if [latency]
    returns [d], the host resolved, the probe was written in full to the
    first address it resolved to, a datagram from that address carrying
    RST or SYN and ACK arrived with nothing but passed-over datagrams
    before it, and [d] is the clock value of that datagram minus the clock
    value read just before the write. *)
Theorem latency_only_for_a_reply w localAddr remoteHost port d :
  result (V2.latency w localAddr remoteHost port) = Ok d ->
  exists remoteAddr more pre src payload clock rest,
    lookup_host w remoteHost = Some (remoteAddr :: more) /\
    snd (V2.sendSyn w localAddr remoteAddr port) = Ok (send_clock w) /\
    inbound w = pre ++ Datagram src payload clock :: rest /\
    forallb (ignored remoteAddr) pre = true /\
    answers remoteAddr (Datagram src payload clock) = true /\
    d = time_Sub clock (send_clock w).
Proof.
  intros H.
  destruct (lookup_host w remoteHost) as [[|remoteAddr more]|] eqn:Hl.
  - unfold V2.latency, V2.latency_thread in H. rewrite Hl in H.
    discriminate H.
  - rewrite (V2_latency_result_cases _ _ _ _ _ _ Hl) in H.
    destruct (snd (V2.sendSyn w localAddr remoteAddr port)) as [s| | | |]
      eqn:Hs; try discriminate H.
    destruct (snd (V2.receiveSynAck w localAddr remoteAddr)) as [r| | | |]
      eqn:Hr; try discriminate H.
    injection H as <-.
    assert (Es := sendSyn_ok_time _ _ _ _ _ Hs). subst s.
    rewrite V2_receiveSynAck_outcome in Hr.
    destruct (resolve_ok w); [|discriminate Hr].
    destruct (listen_ok w); [|discriminate Hr].
    destruct (V2_listen_loop_ok _ _ _ Hr)
      as (pre & src & payload & rest & Hin & Hpre & Hans).
    exists remoteAddr, more, pre, src, payload, r, rest.
    repeat split; try assumption; reflexivity.
  - unfold V2.latency, V2.latency_thread in H. rewrite Hl in H.
    discriminate H.
Qed.

Lemma latency_only_for_a_reply_witness :
  exists remoteAddr more pre src payload clock rest,
    lookup_host sample_world "example.com" = Some (remoteAddr :: more) /\
    snd (V2.sendSyn sample_world "10.0.0.1" remoteAddr 80) =
      Ok (send_clock sample_world) /\
    inbound sample_world = pre ++ Datagram src payload clock :: rest /\
    forallb (ignored remoteAddr) pre = true /\
    answers remoteAddr (Datagram src payload clock) = true /\
    70 = time_Sub clock (send_clock sample_world).
Proof.
  apply (latency_only_for_a_reply sample_world "10.0.0.1" "example.com" 80).
  reflexivity.
Defined.

(** ** The automatic test *)

Lemma autoTest_step world_for localAddr port name host rest :
  autoTest world_for localAddr port ((name, host) :: rest) =
  match result (V2.latency (world_for host) localAddr host port) with
  | Ok d =>
      ((name, d) :: fst (autoTest world_for localAddr port rest),
       snd (autoTest world_for localAddr port rest))
  | o => ([], failed o)
  end.
Proof.
  cbn [autoTest].
  destruct (result (V2.latency (world_for host) localAddr host port));
    try reflexivity.
  destruct (autoTest world_for localAddr port rest). reflexivity.
Qed.

Lemma autoTest_prefix world_for localAddr port pre rest :
  forallb (returns world_for localAddr port) pre = true ->
  autoTest world_for localAddr port (pre ++ rest) =
  (map (measured world_for localAddr port) pre
     ++ fst (autoTest world_for localAddr port rest),
   snd (autoTest world_for localAddr port rest)).
Proof.
  induction pre as [|[name host] pre IH]; intros H.
  - cbn. destruct (autoTest world_for localAddr port rest). reflexivity.
  - cbn [forallb] in H. apply andb_true_iff in H. destruct H as [Hh Hp].
    cbn [app map]. rewrite autoTest_step, (IH Hp).
    unfold returns, measured in *. cbn [fst snd] in *.
    destruct (result (V2.latency (world_for host) localAddr host port));
      try discriminate Hh.
    reflexivity.
Qed.

(** X20. [autoTest] stops at the first measurement that does not return:
    the hosts visited before it are printed, each with its duration and in
    the order of the visit, the process ends the way that measurement
    ended, and the hosts that would have come after it are never
    measured. *)
Theorem autoTest_stops_at_first_failure
    world_for localAddr port pre name host rest :
  forallb (returns world_for localAddr port) pre = true ->
  returns world_for localAddr port (name, host) = false ->
  autoTest world_for localAddr port (pre ++ (name, host) :: rest) =
  (map (measured world_for localAddr port) pre,
   failed (result (V2.latency (world_for host) localAddr host port))).
Proof.
  intros Hpre Hh. rewrite (autoTest_prefix _ _ _ _ _ Hpre), autoTest_step.
  unfold returns in Hh. cbn [fst snd] in Hh.
  destruct (result (V2.latency (world_for host) localAddr host port));
    try discriminate Hh; cbn [fst snd]; rewrite app_nil_r; reflexivity.
Qed.

Lemma autoTest_stops_at_first_failure_witness :
  autoTest auto_worlds "10.0.0.1" 80
    ([("Google", "google.com")] ++ ("Facebook", "facebook.com") ::
     [("Baidu", "baidu.com")]) =
  ([("Google", 70)], Fatal "Error resolving").
Proof.
  exact (autoTest_stops_at_first_failure auto_worlds "10.0.0.1" 80
           [("Google", "google.com")] "Facebook" "facebook.com"
           [("Baidu", "baidu.com")] eq_refl eq_refl).
Defined.

(** X21. When every measurement returns, [autoTest] prints one line for
    each host, in the order of the visit, and returns. *)
Theorem autoTest_all_return world_for localAddr port hosts :
  forallb (returns world_for localAddr port) hosts = true ->
  autoTest world_for localAddr port hosts =
    (map (measured world_for localAddr port) hosts, Ok tt) /\
  List.length (fst (autoTest world_for localAddr port hosts)) =
    List.length hosts.
Proof.
  intros H. pose proof (autoTest_prefix _ _ _ _ [] H) as E.
  rewrite !app_nil_r in E. cbn in E. rewrite E. split; [reflexivity|].
  cbn. apply length_map.
Qed.

Lemma autoTest_all_return_witness :
  autoTest (fun _ => sample_world) "10.0.0.1" 80
    [("a", "example.com"); ("b", "example.com")] =
  ([("a", 70); ("b", 70)], Ok tt).
Proof.
  exact (proj1 (autoTest_all_return (fun _ => sample_world) "10.0.0.1" 80
                  [("a", "example.com"); ("b", "example.com")] eq_refl)).
Defined.

(** ** [main] *)

Lemma Split_free sep a :
  free_of sep a = true -> Split a sep = [a].
Proof.
  unfold free_of. induction a as [|c a IH]; [reflexivity|].
  cbn. intros H. apply andb_true_iff in H. destruct H as [Hc Ha].
  apply negb_true_iff in Hc. rewrite Hc, (IH Ha). reflexivity.
Qed.

Lemma Split_prefix sep a r :
  free_of sep a = true ->
  Split (a ++ String sep r) sep = a :: Split r sep.
Proof.
  unfold free_of. induction a as [|c a IH].
  - intros _. cbn. rewrite Ascii.eqb_refl. reflexivity.
  - cbn. intros H. apply andb_true_iff in H. destruct H as [Hc Ha].
    apply negb_true_iff in Hc. rewrite Hc, (IH Ha). reflexivity.
Qed.

Lemma to_uint16_wraps p k : to_uint16 (p + 65536 * k) = to_uint16 p.
Proof.
  unfold to_uint16. change 65535 with (Z.ones 16).
  rewrite !Z.land_ones by lia. change (2 ^ 16) with 65536.
  rewrite Z.mul_comm. apply Z.mod_add. lia.
Qed.

Lemma main_after_start fl interfaces world_for hosts iface localAddr :
  helpParam fl = false ->
  (if String.eqb (ifaceParam fl) EmptyString
   then chooseInterface interfaces = ([], Ok iface) /\
        iface <> EmptyString
   else ifaceParam fl = iface) ->
  interfaceAddress interfaces iface = ([], Ok localAddr) ->
  main fl interfaces world_for hosts =
  let laddr := hd EmptyString (Split localAddr "/"%char) in
  let port := to_uint16 (portParam fl) in
  if autoParam fl then autoTest world_for laddr port hosts
  else
    match args fl with
    | [] => ([], Fatal "Missing remote address")
    | remoteHost :: _ =>
        report_of "Latency"
          (result (V2.latency (world_for remoteHost) laddr remoteHost port))
    end.
Proof.
  intros Hh Hi Ha. unfold main. rewrite Hh.
  assert (Hstart :
    (iface0 <- (if String.eqb (ifaceParam fl) EmptyString then
                  iface1 <- chooseInterface interfaces ;;
                  if String.eqb iface1 EmptyString
                  then fatal "Could not decide which net interface to use."
                  else ret iface1
                else ret (ifaceParam fl)) ;;
     localAddr0 <- interfaceAddress interfaces iface0 ;;
     index (Split localAddr0 "/"%char) 0) =
    ([], Ok (hd EmptyString (Split localAddr "/"%char)))).
  { pose proof (Split_nonempty localAddr "/") as Hne.
    destruct (String.eqb (ifaceParam fl) EmptyString).
    - destruct Hi as [Hc Hn]. rewrite Hc. cbn.
      destruct (String.eqb_spec iface EmptyString) as [E|_];
        [contradiction|].
      cbn. rewrite Ha. cbn.
      destruct (Split localAddr "/"); [contradiction|reflexivity].
    - rewrite Hi. cbn. rewrite Ha. cbn.
      destruct (Split localAddr "/"); [contradiction|reflexivity]. }
  rewrite Hstart. cbn [snd]. cbv zeta.
  destruct (autoParam fl); [reflexivity|].
  destruct (args fl) as [|remoteHost more]; [reflexivity|].
  unfold report_of.
  destruct (result (V2.latency _ _ _ _)); reflexivity.
Qed.

(** X22. With [-i], [main] measures from the address of that interface
    with its mask cut off: when [interfaceAddress] gives "ip/mask", the
    local address handed to [latency] (or to [autoTest] with [-a]) is "ip",
    and the port is [-p] taken modulo 65536; without [-a] and without a
    remote address nothing is measured. *)
Theorem main_with_interface fl interfaces world_for hosts ip mask :
  helpParam fl = false ->
  ifaceParam fl <> EmptyString ->
  interfaceAddress interfaces (ifaceParam fl) =
    ([], Ok (ip ++ String "/"%char mask)%string) ->
  free_of "/"%char ip = true ->
  main fl interfaces world_for hosts =
  if autoParam fl
  then autoTest world_for ip (portParam fl mod 65536) hosts
  else
    match args fl with
    | [] => ([], Fatal "Missing remote address")
    | remoteHost :: _ =>
        report_of "Latency"
          (result (V2.latency (world_for remoteHost) ip remoteHost
                     (portParam fl mod 65536)))
    end.
Proof.
  intros Hh Hi Ha Hf.
  rewrite (main_after_start fl interfaces world_for hosts (ifaceParam fl)
             (ip ++ String "/"%char mask)%string Hh).
  - cbv zeta. rewrite (Split_prefix _ _ _ Hf). cbn [hd].
    unfold to_uint16. change 65535 with (Z.ones 16).
    rewrite Z.land_ones by lia. reflexivity.
  - destruct (String.eqb_spec (ifaceParam fl) EmptyString);
      [contradiction|reflexivity].
  - exact Ha.
Qed.

Lemma main_with_interface_witness :
  main (mkFlags "eth0" false 65616 false ["example.com"])
    (Some sample_interfaces) (fun _ => sample_world) defaultHosts =
  ([("Latency", 70)], Ok tt).
Proof.
  exact (main_with_interface
           (mkFlags "eth0" false 65616 false ["example.com"])
           (Some sample_interfaces) (fun _ => sample_world) defaultHosts
           "192.168.1.30" "24"
           eq_refl ltac:(discriminate) eq_refl eq_refl).
Defined.

(** X23. Without [-i], [main] measures from the first address of the
    interface [chooseInterface] proposes: on a machine whose interfaces
    have distinct names and of which one at least is usable, it goes on
    with that address, up to its first "/", and reaches the measurement
    (or the check of the remote address) without failing on the way. *)
Theorem main_with_chosen_interface fl l world_for hosts :
  helpParam fl = false ->
  ifaceParam fl = EmptyString ->
  NoDup (map Name l) ->
  chooseInterface_loop l <> EmptyString ->
  exists iface a more,
    In iface l /\ Name iface = chooseInterface_loop l /\
    Addrs iface = Some (a :: more) /\
    main fl (Some l) world_for hosts =
    let laddr := hd EmptyString (Split a "/"%char) in
    let port := to_uint16 (portParam fl) in
    if autoParam fl then autoTest world_for laddr port hosts
    else
      match args fl with
      | [] => ([], Fatal "Missing remote address")
      | remoteHost :: _ =>
          report_of "Latency"
            (result (V2.latency (world_for remoteHost) laddr remoteHost
                       port))
      end.
Proof.
  intros Hh Hi Hnd Hne.
  destruct (chooseInterface_loop_sound l Hne)
    as (iface & a & more & Hin & Hname & Ha).
  exists iface, a, more. repeat split; try assumption.
  apply (main_after_start fl (Some l) world_for hosts
           (chooseInterface_loop l) a Hh).
  - rewrite Hi. cbn. split; [reflexivity|exact Hne].
  - unfold interfaceAddress, InterfaceByName.
    destruct (String.eqb_spec (chooseInterface_loop l) EmptyString) as [E|_];
      [contradiction|].
    rewrite <- Hname, (find_by_name l iface Hnd Hin), Ha. reflexivity.
Qed.

Lemma main_with_chosen_interface_witness :
  main (mkFlags "" false 80 false ["example.com"])
    (Some sample_interfaces) (fun _ => sample_world) defaultHosts =
  ([("Latency", 70)], Ok tt).
Proof.
  destruct (main_with_chosen_interface
              (mkFlags "" false 80 false ["example.com"])
              sample_interfaces (fun _ => sample_world) defaultHosts
              eq_refl eq_refl)
    as (iface & a & more & _ & _ & _ & H).
  - cbn. repeat (apply NoDup_cons; [cbn; intuition discriminate|]).
    apply NoDup_nil.
  - discriminate.
  - reflexivity.
Defined.

(** X24. [main] fails early: with [-h] nothing else is done; without
    [-i], when no interface is usable (only the loopback, interfaces
    without address or whose addresses cannot be read) or when
    [net.Interfaces] fails, the process ends before any measurement,
    whatever [-a] and the remote address are. *)
Theorem main_fails_early fl l world_for hosts :
  (helpParam fl = true ->
   main fl (Some l) world_for hosts = ([], Fatal "help")) /\
  (helpParam fl = false -> ifaceParam fl = EmptyString ->
   forallb unusable l = true ->
   main fl (Some l) world_for hosts =
     ([], Fatal "Could not decide which net interface to use.")) /\
  (helpParam fl = false -> ifaceParam fl = EmptyString ->
   main fl None world_for hosts = ([], Fatal "net.Interfaces")).
Proof.
  split; [|split].
  - intros H. unfold main. rewrite H. reflexivity.
  - intros Hh Hi Hl. unfold main. rewrite Hh, Hi. cbn.
    rewrite <- (app_nil_r l), chooseInterface_loop_skips by exact Hl.
    reflexivity.
  - intros Hh Hi. unfold main. rewrite Hh, Hi. reflexivity.
Qed.

Lemma main_fails_early_witness :
  main (mkFlags "" false 80 true [])
    (Some [mkInterface "lo" (Some ["127.0.0.1/8"]); mkInterface "tun0" None])
    auto_worlds defaultHosts =
  ([], Fatal "Could not decide which net interface to use.").
Proof.
  exact (proj1 (proj2 (main_fails_early (mkFlags "" false 80 true [])
                         [mkInterface "lo" (Some ["127.0.0.1/8"]);
                          mkInterface "tun0" None]
                         auto_worlds defaultHosts))
           eq_refl eq_refl eq_refl).
Defined.
